(** * MonCacheOnReadFs: a caching union of two file systems

    A shallow embedding of [monCacheOnReadFs.go].  The two stores behind the
    union ([base] and [layer]) are values of the [Fs] interface; every method
    of the union is a computation over the pair of stores that records, in
    order, each call it performs on them together with the call's outcome. *)

From Stdlib Require Import ZArith String List Bool Lia.
From stdpp Require Import base option gmap strings.
Import ListNotations.
Local Open Scope string_scope.
Local Open Scope list_scope.
Local Open Scope Z_scope.

(** ** Go values *)

(** [time.Time] as an instant in nanoseconds and [time.Duration] as an int64
    count of nanoseconds.  File times and durations stay far inside the range
    of [time.Time], so [Add] is plain addition. *)
Definition Time := Z.
Definition Duration := Z.

Definition Add (t : Time) (d : Duration) : Time := t + d.
Definition Before (t u : Time) : bool := t <? u.
Definition After (t u : Time) : bool := t >? u.

Definition Second : Duration := 1000000000.
Definition Hour : Duration := 3600 * Second.

Definition FileMode := Z.

(** What the methods of an [os.FileInfo] answer. *)
Record FileInfo : Type := mkFileInfo {
  Name : string;
  Size : Z;
  Mode : FileMode;
  ModTime : Time;
  IsDir : bool
}.

(** The dynamic values an [error] interface can hold.  Pointers carry their
    address: [==] on two interface values holding pointers compares the
    addresses. *)
Inductive errval : Type :=
| Errno (n : Z)                              (* syscall.Errno *)
| ErrorString (addr : positive) (msg : string) (* pointer to errors.errorString *)
| PathErrorPtr (p : option PathError)        (* pointer to os.PathError, [None] the nil pointer *)
with PathError : Type :=
| mkPathError (addr : positive) (Op Path : string) (Err : option errval).

(** The interface type [error]; [None] is the nil interface. *)
Definition error := option errval.

Definition ENOENT : errval := Errno 2.
Definition EPERM : errval := Errno 1.
Definition EACCES : errval := Errno 13.
Definition EEXIST : errval := Errno 17.
Definition ErrNotExist : errval := ErrorString 1 "file does not exist".

Definition PathError_addr (p : PathError) : positive :=
  match p with mkPathError a _ _ _ => a end.

Definition PathError_Err (p : PathError) : error :=
  match p with mkPathError _ _ _ e => e end.

(** [a == b] on interface values: identical dynamic types and equal dynamic
    values. *)
Definition errval_eqb (a b : errval) : bool :=
  match a, b with
  | Errno n, Errno m => n =? m
  | ErrorString p _, ErrorString q _ => Pos.eqb p q
  | PathErrorPtr None, PathErrorPtr None => true
  | PathErrorPtr (Some p), PathErrorPtr (Some q) =>
      Pos.eqb (PathError_addr p) (PathError_addr q)
  | _, _ => false
  end.

Definition error_eqb (a b : error) : bool :=
  match a, b with
  | None, None => true
  | Some x, Some y => errval_eqb x y
  | _, _ => false
  end.

(** The assignment [err, ok = err.(T)] with [T] the pointer type of
    [os.PathError] and [err] of static type [error]: when the assertion fails
    the zero value of [T], a nil pointer, is stored in the interface variable,
    which is then not the nil interface. *)
Definition assertPathError (err : error) : error * bool :=
  match err with
  | Some (PathErrorPtr p) => (Some (PathErrorPtr p), true)
  | _ => (Some (PathErrorPtr None), false)
  end.

(** The result of a call that returns [(value, error)], under the convention
    of the [Fs] interface that exactly one of the two is nil. *)
Inductive Result (A : Type) : Type :=
| Ok (a : A)
| Err (e : errval).
Arguments Ok {A} a.
Arguments Err {A} e.

Definition valOf {A} (r : Result A) : option A :=
  match r with Ok a => Some a | Err _ => None end.

Definition errOf {A} (r : Result A) : error :=
  match r with Ok _ => None | Err e => Some e end.

(** Open-flag bits of package [syscall] (linux). *)
Definition O_RDONLY : Z := 0.
Definition O_WRONLY : Z := 1.
Definition O_RDWR : Z := 2.
Definition O_CREATE : Z := 64.
Definition O_TRUNC : Z := 512.
Definition O_APPEND : Z := 1024.

(** [fsnotify.Op] bits. *)
Definition fsnotify_Create : Z := 1.
Definition fsnotify_Write : Z := 2.
Definition fsnotify_Remove : Z := 4.

(** ** The stores *)

(** A file handle of a store. *)
Definition Handle := nat.

(** Modelled from the spec: the capability set consumed from base and layer
    (the [Fs] interface, declared outside this source file), over the state
    [S] of the store that implements it.  Each method takes the store's state
    and returns its answer with the store's next state.  [fsClose] is the
    handle's [Close]. *)
Class Fs (S : Type) : Type := {
  fsStat : string -> S -> Result FileInfo * S;
  fsOpen : string -> S -> Result Handle * S;
  fsOpenFile : string -> Z -> FileMode -> S -> Result Handle * S;
  fsCreate : string -> S -> Result Handle * S;
  fsRename : string -> string -> S -> error * S;
  fsRemove : string -> S -> error * S;
  fsRemoveAll : string -> S -> error * S;
  fsMkdir : string -> FileMode -> S -> error * S;
  fsMkdirAll : string -> FileMode -> S -> error * S;
  fsChmod : string -> FileMode -> S -> error * S;
  fsChtimes : string -> Time -> Time -> S -> error * S;
  fsClose : Handle -> S -> error * S
}.

(** The package's [copyToLayer(base, layer, name)], which lives outside this
    source file: a parameter of the development. *)
Class Promote (B L : Type) : Type := {
  copyToLayerFn : string -> B -> L -> error * B * L
}.

(** Modelled from the spec: the four cache states ("one of four mutually
    exclusive values"), whose declaration is outside this source file. *)
Inductive cacheState : Type :=
| cacheMiss
| cacheStale
| cacheHit
| cacheLocal.

Inductive Store : Type := Base | Layer.

Inductive Op : Type :=
| OStat (name : string)
| OOpen (name : string)
| OOpenFile (name : string) (flag : Z) (perm : FileMode)
| OCreate (name : string)
| ORename (oldname newname : string)
| ORemove (name : string)
| ORemoveAll (name : string)
| OMkdir (name : string) (perm : FileMode)
| OMkdirAll (name : string) (perm : FileMode)
| OChmod (name : string) (mode : FileMode)
| OChtimes (name : string) (atime mtime : Time)
| OClose (h : Handle).

(** One entry of the record of what a method did: a call on a store, a
    promotion, or a line written with [log.Println]; each with the error the
    call returned. *)
Inductive Call : Type :=
| CallFs (s : Store) (o : Op) (err : error)
| CallCopyToLayer (name : string) (err : error)
| CallLog (msg : string) (err : error).

(** The [File] values the union hands out: a handle of one store passed
    through, or [&UnionFile{base: .., layer: ..}] whose two fields may be
    nil. *)
Inductive File : Type :=
| StoreFile (s : Store) (h : Handle)
| UnionFile (ubase ulayer : option Handle).

(** A computation either returns or panics (nil dereference). *)
Inductive Res (A : Type) : Type :=
| Val (a : A)
| Panic.
Arguments Val {A} a.
Arguments Panic {A}.

(** What the watcher's two channels deliver. *)
Inductive WatcherMsg : Type :=
| MsgEvent (EName : string) (EOp : Z)
| MsgError (err : errval).

(** ** The union and its methods *)

(** The fields of a [MonCacheOnReadFs] (the two stores as their current
    states, and [cacheTime]) with the clock that [time.Now] reads. *)
Record World (B L : Type) : Type := mkWorld {
  base : B;
  layer : L;
  cacheTime : Duration;
  clock : Time
}.
Arguments mkWorld {B L} _ _ _ _.
Arguments base {B L} _.
Arguments layer {B L} _.
Arguments cacheTime {B L} _.
Arguments clock {B L} _.

Definition setBase {B L} (w : World B L) (b : B) : World B L :=
  mkWorld b (layer w) (cacheTime w) (clock w).

Definition setLayer {B L} (w : World B L) (l : L) : World B L :=
  mkWorld (base w) l (cacheTime w) (clock w).

(** A method: from the world to its result, the world it leaves and the calls
    it performed, oldest first. *)
Definition M (B L A : Type) : Type := World B L -> Res A * World B L * list Call.

Definition ret {B L A} (a : A) : M B L A := fun w => (Val a, w, []).

Definition bind {B L A C} (m : M B L A) (k : A -> M B L C) : M B L C :=
  fun w =>
    match m w with
    | (Val a, w1, cs1) =>
        match k a w1 with
        | (r, w2, cs2) => (r, w2, cs1 ++ cs2)
        end
    | (Panic, w1, cs1) => (Panic, w1, cs1)
    end.

Notation "x <- m ;; k" := (bind m (fun x => k))
  (at level 20, m at level 99, k at level 200, only parsing).
Notation "' pat <- m ;; k" := (bind m (fun x => match x with pat => k end))
  (at level 20, pat pattern, m at level 99, k at level 200, only parsing).

Definition resultOf {B L A} (out : Res A * World B L * list Call) : Res A :=
  fst (fst out).
Definition worldOf {B L A} (out : Res A * World B L * list Call) : World B L :=
  snd (fst out).
Definition callsOf {B L A} (out : Res A * World B L * list Call) : list Call :=
  snd out.

(** [v != nil] on an interface value. *)
Definition notNil {A} (v : option A) : bool :=
  match v with Some _ => true | None => false end.

(** A returned [(value, error)] pair of [Go], from a store's answer. *)
Definition pairOf {A} (r : Result A) : option A * error := (valOf r, errOf r).

Section Methods.
Context {B L : Type} `{FsB : Fs B} `{FsL : Fs L} `{P : Promote B L}.

Local Abbreviation M := (M B L).

(** A call [u.base.f(..)] whose answer [a] carries the error [e a]. *)
Definition onBase {A} (o : Op) (e : A -> error) (f : B -> A * B) : M A :=
  fun w =>
    match f (base w) with
    | (a, b) => (Val a, setBase w b, [CallFs Base o (e a)])
    end.

(** A call [u.layer.f(..)]. *)
Definition onLayer {A} (o : Op) (e : A -> error) (f : L -> A * L) : M A :=
  fun w =>
    match f (layer w) with
    | (a, l) => (Val a, setLayer w l, [CallFs Layer o (e a)])
    end.

Definition getCacheTime : M Duration := fun w => (Val (cacheTime w), w, []).

(** [time.Now()] *)
Definition timeNow : M Time := fun w => (Val (clock w), w, []).

(** [log.Println(msg, err)] *)
Definition logPrintln (msg : string) (err : error) : M unit :=
  fun w => (Val tt, w, [CallLog msg err]).

(** A method call on an [os.FileInfo] interface value: nil panics. *)
Definition deref (fi : option FileInfo) : M FileInfo :=
  fun w =>
    match fi with
    | Some i => (Val i, w, [])
    | None => (Panic, w, [])
    end.

Definition cacheStatus (name : string)
  : M (cacheState * option FileInfo * error) :=
  r <- onLayer (OStat name) errOf (fsStat name) ;;
  match r with
  | Ok lfi =>
      ct <- getCacheTime ;;
      if ct =? 0 then ret (cacheHit, Some lfi, None)
      else
        now <- timeNow ;;
        if Before (Add (ModTime lfi) ct) now then
          rb <- onBase (OStat name) errOf (fsStat name) ;;
          match rb with
          | Err _ => ret (cacheLocal, Some lfi, None)
          | Ok bfi =>
              if After (ModTime bfi) (ModTime lfi)
              then ret (cacheStale, Some bfi, None)
              else ret (cacheHit, Some lfi, None)
          end
        else ret (cacheHit, Some lfi, None)
  | Err e =>
      let err := Some e in
      if error_eqb err (Some ENOENT) then ret (cacheMiss, None, None)
      else
        let '(err, ok) := assertPathError err in
        if ok && error_eqb err (Some ErrNotExist)
        then ret (cacheMiss, None, None)
        else ret (cacheMiss, None, err)
  end.

Definition copyToLayer (name : string) : M error :=
  fun w =>
    match copyToLayerFn name (base w) (layer w) with
    | (err, b, l) => (Val err, setLayer (setBase w b) l, [CallCopyToLayer name err])
    end.

(** One delivery handled by the loop of [monitor]; [true] when the loop
    goes on to its next iteration (by [continue] or by reaching the end of
    its body), [false] when it is left. *)
Definition monitorStep (msg : WatcherMsg) : M bool :=
  match msg with
  | MsgEvent EName EOp =>
      if Z.land EOp fsnotify_Write =? fsnotify_Write then
        '(st, fi, err) <- cacheStatus EName ;;
        if notNil err then
          _ <- logPrintln "[MonCacheOnReadFs] Cache status error:" err ;;
          ret true
        else
          match st with
          | cacheLocal | cacheStale | cacheHit =>
              i <- deref fi ;;
              if negb (IsDir i) then
                err <- copyToLayer EName ;;
                if notNil err then
                  _ <- logPrintln "[MonCacheOnReadFs] Cache error:" err ;;
                  ret true
                else ret true
              else ret true
          | cacheMiss => ret true
          end
      else ret true
  | MsgError err =>
      _ <- logPrintln "[MonCacheOnReadFs] Watcher error:" (Some err) ;;
      ret true
  end.

(** The [for { select { .. } }] loop run on the deliveries [msgs]; it
    returns the deliveries it left unhandled. *)
Fixpoint monitorLoop (msgs : list WatcherMsg) : M (list WatcherMsg) :=
  match msgs with
  | [] => ret []
  | msg :: rest =>
      go <- monitorStep msg ;;
      if go then monitorLoop rest else ret rest
  end.

(** [monitor], given what [fsnotify.NewWatcher] returned and what the
    watcher goes on to deliver. *)
Definition monitor (newWatcher : error) (msgs : list WatcherMsg)
  : M (list WatcherMsg) :=
  if notNil newWatcher then
    _ <- logPrintln "[MonCacheOnReadFs] NewWatcher error:" newWatcher ;;
    ret msgs
  else monitorLoop msgs.

(** In the five verbs that follow, [finish] is the end of the method after
    its [switch]: [if err != nil { return err }] and then the verb on the
    layer. *)
Definition Chtimes (name : string) (atime mtime : Time) : M error :=
  '(st, _, err) <- cacheStatus name ;;
  if notNil err then ret err
  else
    let finish (err : error) : M error :=
      if notNil err then ret err
      else onLayer (OChtimes name atime mtime) id (fsChtimes name atime mtime) in
    match st with
    | cacheLocal => finish err
    | cacheHit =>
        err <- onBase (OChtimes name atime mtime) id (fsChtimes name atime mtime) ;;
        finish err
    | cacheStale | cacheMiss =>
        cerr <- copyToLayer name ;;
        if notNil cerr then ret cerr
        else
          err <- onBase (OChtimes name atime mtime) id (fsChtimes name atime mtime) ;;
          finish err
    end.

Definition Chmod (name : string) (mode : FileMode) : M error :=
  '(st, _, err) <- cacheStatus name ;;
  if notNil err then ret err
  else
    let finish (err : error) : M error :=
      if notNil err then ret err
      else onLayer (OChmod name mode) id (fsChmod name mode) in
    match st with
    | cacheLocal => finish err
    | cacheHit =>
        err <- onBase (OChmod name mode) id (fsChmod name mode) ;;
        finish err
    | cacheStale | cacheMiss =>
        cerr <- copyToLayer name ;;
        if notNil cerr then ret cerr
        else
          err <- onBase (OChmod name mode) id (fsChmod name mode) ;;
          finish err
    end.

Definition Stat (name : string) : M (option FileInfo * error) :=
  '(st, fi, err) <- cacheStatus name ;;
  if notNil err then ret (None, err)
  else
    match st with
    | cacheMiss =>
        r <- onBase (OStat name) errOf (fsStat name) ;;
        ret (pairOf r)
    | _ => ret (fi, None)
    end.

Definition Rename (oldname newname : string) : M error :=
  '(st, _, err) <- cacheStatus oldname ;;
  if notNil err then ret err
  else
    let finish (err : error) : M error :=
      if notNil err then ret err
      else onLayer (ORename oldname newname) id (fsRename oldname newname) in
    match st with
    | cacheLocal => finish err
    | cacheHit =>
        err <- onBase (ORename oldname newname) id (fsRename oldname newname) ;;
        finish err
    | cacheStale | cacheMiss =>
        cerr <- copyToLayer oldname ;;
        if notNil cerr then ret cerr
        else
          err <- onBase (ORename oldname newname) id (fsRename oldname newname) ;;
          finish err
    end.

Definition Remove (name : string) : M error :=
  '(st, _, err) <- cacheStatus name ;;
  if notNil err then ret err
  else
    let finish (err : error) : M error :=
      if notNil err then ret err
      else onLayer (ORemove name) id (fsRemove name) in
    match st with
    | cacheLocal => finish err
    | cacheHit | cacheStale | cacheMiss =>
        err <- onBase (ORemove name) id (fsRemove name) ;;
        finish err
    end.

Definition RemoveAll (name : string) : M error :=
  '(st, _, err) <- cacheStatus name ;;
  if notNil err then ret err
  else
    let finish (err : error) : M error :=
      if notNil err then ret err
      else onLayer (ORemoveAll name) id (fsRemoveAll name) in
    match st with
    | cacheLocal => finish err
    | cacheHit | cacheStale | cacheMiss =>
        err <- onBase (ORemoveAll name) id (fsRemoveAll name) ;;
        finish err
    end.

(** [os.O_WRONLY|syscall.O_RDWR|os.O_APPEND|os.O_CREATE|os.O_TRUNC] *)
Definition writeMask : Z :=
  Z.lor (Z.lor (Z.lor (Z.lor O_WRONLY O_RDWR) O_APPEND) O_CREATE) O_TRUNC.

(** [opens] is the part of the method after its [switch]. *)
Definition OpenFile (name : string) (flag : Z) (perm : FileMode)
  : M (option File * error) :=
  '(st, _, err) <- cacheStatus name ;;
  if notNil err then ret (None, err)
  else
    let opens : M (option File * error) :=
      if negb (Z.land flag writeMask =? 0) then
        rb <- onBase (OOpenFile name flag perm) errOf (fsOpenFile name flag perm) ;;
        match rb with
        | Err e => ret (None, Some e)
        | Ok bfi =>
            rl <- onLayer (OOpenFile name flag perm) errOf (fsOpenFile name flag perm) ;;
            match rl with
            | Err e =>
                _ <- onBase (OClose bfi) id (fsClose bfi) ;;
                ret (None, Some e)
            | Ok lfi => ret (Some (UnionFile (Some bfi) (Some lfi)), None)
            end
        end
      else
        r <- onLayer (OOpenFile name flag perm) errOf (fsOpenFile name flag perm) ;;
        ret (option_map (StoreFile Layer) (valOf r), errOf r) in
    match st with
    | cacheLocal | cacheHit => opens
    | _ =>
        cerr <- copyToLayer name ;;
        if notNil cerr then ret (None, cerr) else opens
    end.

Definition Open (name : string) : M (option File * error) :=
  '(st, fi, err) <- cacheStatus name ;;
  if notNil err then ret (None, err)
  else
    let layerOpen : M (option File * error) :=
      r <- onLayer (OOpen name) errOf (fsOpen name) ;;
      ret (option_map (StoreFile Layer) (valOf r), errOf r) in
    (* the dirs from cacheHit, cacheStale fall down here *)
    let dirs : M (option File * error) :=
      rb <- onBase (OOpen name) errOf (fsOpen name) ;;
      let bfile := valOf rb in
      rl <- onLayer (OOpen name) errOf (fsOpen name) ;;
      let lfile := valOf rl in
      let err := errOf rl in
      if notNil err && negb (notNil bfile) then ret (None, err)
      else ret (Some (UnionFile bfile lfile), None) in
    match st with
    | cacheLocal => layerOpen
    | cacheMiss =>
        rb <- onBase (OStat name) errOf (fsStat name) ;;
        match rb with
        | Err e => ret (None, Some e)
        | Ok bfi =>
            if IsDir bfi then
              r <- onBase (OOpen name) errOf (fsOpen name) ;;
              ret (option_map (StoreFile Base) (valOf r), errOf r)
            else
              cerr <- copyToLayer name ;;
              if notNil cerr then ret (None, cerr) else layerOpen
        end
    | cacheStale =>
        i <- deref fi ;;
        if negb (IsDir i) then
          cerr <- copyToLayer name ;;
          if notNil cerr then ret (None, cerr) else layerOpen
        else dirs
    | cacheHit =>
        i <- deref fi ;;
        if negb (IsDir i) then layerOpen else dirs
    end.

Definition Mkdir (name : string) (perm : FileMode) : M error :=
  err <- onBase (OMkdir name perm) id (fsMkdir name perm) ;;
  if notNil err then ret err
  else onLayer (OMkdirAll name perm) id (fsMkdirAll name perm).

Definition MkdirAll (name : string) (perm : FileMode) : M error :=
  err <- onBase (OMkdirAll name perm) id (fsMkdirAll name perm) ;;
  if notNil err then ret err
  else onLayer (OMkdirAll name perm) id (fsMkdirAll name perm).

Definition Create (name : string) : M (option File * error) :=
  rb <- onBase (OCreate name) errOf (fsCreate name) ;;
  match rb with
  | Err e => ret (None, Some e)
  | Ok bfh =>
      rl <- onLayer (OCreate name) errOf (fsCreate name) ;;
      match rl with
      | Err e =>
          _ <- onBase (OClose bfh) id (fsClose bfh) ;;
          ret (None, Some e)
      | Ok lfh => ret (Some (UnionFile (Some bfh) (Some lfh)), None)
      end
  end.

End Methods.

(** ** An in-memory store

    A small implementation of the [Fs] interface on which the methods of the
    union are run on concrete inputs: a finite map from paths to metadata, a
    read-only switch (every mutating call then answers [EPERM], as a
    read-only filter around a store does), and the error the store answers
    for a path it does not have. *)
Record MemFs : Type := mkMemFs {
  files : gmap string FileInfo;
  readOnly : bool;
  notFound : errval;
  nextHandle : Handle
}.

Definition setFiles (s : MemFs) (m : gmap string FileInfo) : MemFs :=
  mkMemFs m (readOnly s) (notFound s) (nextHandle s).

Definition newHandle (s : MemFs) : Result Handle * MemFs :=
  (Ok (nextHandle s), mkMemFs (files s) (readOnly s) (notFound s) (S (nextHandle s))).

Definition emptyFile (name : string) (mode : FileMode) (dir : bool) : FileInfo :=
  mkFileInfo name 0 mode 0 dir.

(** A mutating call on a path the store must already have. *)
Definition memUpdate (name : string) (f : FileInfo -> gmap string FileInfo)
    (s : MemFs) : error * MemFs :=
  if readOnly s then (Some EPERM, s)
  else
    match files s !! name with
    | None => (Some (notFound s), s)
    | Some fi => (None, setFiles s (f fi))
    end.

Definition memStat (name : string) (s : MemFs) : Result FileInfo * MemFs :=
  match files s !! name with
  | Some fi => (Ok fi, s)
  | None => (Err (notFound s), s)
  end.

Definition memOpen (name : string) (s : MemFs) : Result Handle * MemFs :=
  match files s !! name with
  | Some _ => newHandle s
  | None => (Err (notFound s), s)
  end.

Definition memCreate (name : string) (s : MemFs) : Result Handle * MemFs :=
  if readOnly s then (Err EPERM, s)
  else newHandle (setFiles s (<[name := emptyFile name 438 false]> (files s))).

Definition memOpenFile (name : string) (flag : Z) (perm : FileMode) (s : MemFs)
  : Result Handle * MemFs :=
  if readOnly s && negb (Z.land flag writeMask =? 0) then (Err EPERM, s)
  else
    match files s !! name with
    | Some _ => newHandle s
    | None =>
        if Z.land flag O_CREATE =? 0 then (Err (notFound s), s)
        else newHandle (setFiles s (<[name := emptyFile name perm false]> (files s)))
    end.

Definition memMkdir (name : string) (perm : FileMode) (s : MemFs) : error * MemFs :=
  if readOnly s then (Some EPERM, s)
  else
    match files s !! name with
    | Some _ => (Some EEXIST, s)
    | None => (None, setFiles s (<[name := emptyFile name perm true]> (files s)))
    end.

Definition memMkdirAll (name : string) (perm : FileMode) (s : MemFs) : error * MemFs :=
  if readOnly s then (Some EPERM, s)
  else
    match files s !! name with
    | Some _ => (None, s)
    | None => (None, setFiles s (<[name := emptyFile name perm true]> (files s)))
    end.

Definition memRemoveAll (name : string) (s : MemFs) : error * MemFs :=
  if readOnly s then (Some EPERM, s)
  else (None, setFiles s (filter (fun kv => String.prefix name (fst kv) = false) (files s))).

#[export] Instance MemFs_Fs : Fs MemFs := {
  fsStat := memStat;
  fsOpen := memOpen;
  fsOpenFile := memOpenFile;
  fsCreate := memCreate;
  fsRename oldname newname s :=
    memUpdate oldname (fun fi => <[newname := fi]> (delete oldname (files s))) s;
  fsRemove name s := memUpdate name (fun _ => delete name (files s)) s;
  fsRemoveAll := memRemoveAll;
  fsMkdir := memMkdir;
  fsMkdirAll := memMkdirAll;
  fsChmod name mode s :=
    memUpdate name
      (fun fi => <[name := mkFileInfo (Name fi) (Size fi) mode (ModTime fi) (IsDir fi)]> (files s)) s;
  fsChtimes name atime mtime s :=
    memUpdate name
      (fun fi => <[name := mkFileInfo (Name fi) (Size fi) (Mode fi) mtime (IsDir fi)]> (files s)) s;
  fsClose h s := (None, s)
}.

(** Modelled from the spec: the promotion primitive, which "copies content +
    modTime from base to layer" and is "safe to call when layer already has a
    current copy"; here between two in-memory stores. *)
Definition memCopyToLayer (name : string) (b l : MemFs) : error * MemFs * MemFs :=
  match files b !! name with
  | None => (Some (notFound b), b, l)
  | Some fi =>
      if readOnly l then (Some EPERM, b, l)
      else (None, b, setFiles l (<[name := fi]> (files l)))
  end.

#[export] Instance MemFs_Promote : Promote MemFs MemFs := {
  copyToLayerFn := memCopyToLayer
}.

Definition memStore (entries : list (string * FileInfo)) (ro : bool) (nf : errval) : MemFs :=
  mkMemFs (list_to_map entries) ro nf 3%nat.

Definition aFile (name : string) (mtime : Time) : FileInfo :=
  mkFileInfo name 10 420 mtime false.

Definition aDir (name : string) (mtime : Time) : FileInfo :=
  mkFileInfo name 0 493 mtime true.

(** ** Concrete worlds *)

Definition T0 : Time := 5 * Hour.

(** Window of one hour, the layer has [/a] of time [T0], the base has [/a]
    of time [T0 + 2h], the clock reads [T0 + 1h + 1s]. *)
Definition worldStale : World MemFs MemFs :=
  mkWorld (memStore [("/a", aFile "/a" (T0 + 2 * Hour))] false ENOENT)
          (memStore [("/a", aFile "/a" T0)] false ENOENT)
          Hour (T0 + Hour + Second).

(** Unlimited caching: the layer has [/b], the base has a newer [/b]. *)
Definition worldUnlimited : World MemFs MemFs :=
  mkWorld (memStore [("/b", aFile "/b" (T0 + 2 * Hour))] false ENOENT)
          (memStore [("/b", aFile "/b" T0)] false ENOENT)
          0 (T0 + 100 * Hour).

(** The base has the file [/a] and the directory [/d], the layer is empty. *)
Definition worldMiss : World MemFs MemFs :=
  mkWorld (memStore [("/a", aFile "/a" T0); ("/d", aDir "/d" T0)] false ENOENT)
          (memStore [] false ENOENT)
          Hour (T0 + Second).

(** As [worldMiss], behind a read-only base. *)
Definition worldReadOnlyBase : World MemFs MemFs :=
  mkWorld (memStore [("/a", aFile "/a" T0); ("/d", aDir "/d" T0)] true ENOENT)
          (memStore [] false ENOENT)
          Hour (T0 + Second).

(** Both stores hold the directory [/d], the layer's copy past the window. *)
Definition worldDir : World MemFs MemFs :=
  mkWorld (memStore [("/d", aDir "/d" (T0 + 2 * Hour))] false ENOENT)
          (memStore [("/d", aDir "/d" T0)] false ENOENT)
          Hour (T0 + Hour + Second).

(** The layer has [/a], past the window; the base does not have it. *)
Definition worldLocal : World MemFs MemFs :=
  mkWorld (memStore [] false ENOENT)
          (memStore [("/a", aFile "/a" T0)] false ENOENT)
          Hour (T0 + Hour + Second).

(** As [worldStale] with the clock inside the window: [/a] is a Hit. *)
Definition worldHit : World MemFs MemFs :=
  mkWorld (memStore [("/a", aFile "/a" (T0 + 2 * Hour))] false ENOENT)
          (memStore [("/a", aFile "/a" T0)] false ENOENT)
          Hour (T0 + Second).

(** As [worldMiss], with a layer that refuses every write. *)
Definition worldReadOnlyLayer : World MemFs MemFs :=
  mkWorld (memStore [("/a", aFile "/a" T0); ("/d", aDir "/d" T0)] false ENOENT)
          (memStore [] true ENOENT)
          Hour (T0 + Second).

(** What [os.Stat] answers for a missing path: a [PathError] around
    [ENOENT]. *)
Definition statNotFound : errval :=
  PathErrorPtr (Some (mkPathError 9 "stat" "/a" (Some ENOENT))).

(** The layer answers a missing path as [os.Stat] does. *)
Definition worldOsLayer : World MemFs MemFs :=
  mkWorld (memStore [("/a", aFile "/a" T0)] false ENOENT)
          (memStore [] false statNotFound)
          Hour (T0 + Second).

(** The layer answers every missing path with a permission error. *)
Definition worldDeniedLayer : World MemFs MemFs :=
  mkWorld (memStore [("/a", aFile "/a" T0)] false ENOENT)
          (memStore [] false EACCES)
          Hour (T0 + Second).

(** ** Properties of runs *)

Definition isStat (c : Call) : Prop :=
  match c with
  | CallFs _ (OStat _) _ => True
  | _ => False
  end.

Definition isStatOrPromotion (c : Call) : Prop :=
  match c with
  | CallFs _ (OStat _) _ => True
  | CallCopyToLayer _ _ => True
  | _ => False
  end.

Definition promotionIn (cs : list Call) : Prop :=
  exists name err, In (CallCopyToLayer name err) cs.

(** The run [out] of a method on a path that classified with the calls
    [cs]: it goes on with a promotion of [name]; a failed promotion ends the
    run with its error, a successful one is followed by the call [bop] on the
    base. *)
Definition promotesThenBase {B L} (name : string) (bop : Op) (cs : list Call)
    (out : Res error * World B L * list Call) : Prop :=
  exists cerr rest,
    callsOf out = cs ++ CallCopyToLayer name cerr :: rest
    /\ match cerr with
       | Some _ => rest = [] /\ resultOf out = Val cerr
       | None => exists berr rest', rest = CallFs Base bop berr :: rest'
       end.

(** The run goes on with the call [bop] on the base, and holds no promotion
    at all. *)
Definition baseWithoutPromotion {B L} (bop : Op) (cs : list Call)
    (out : Res error * World B L * list Call) : Prop :=
  (exists berr rest, callsOf out = cs ++ CallFs Base bop berr :: rest)
  /\ ~ promotionIn (callsOf out).

(** Wherever the run holds the call [bop] on the base: before it come only
    the oracle's [Stat] calls and a promotion; if it failed it is the last
    call and its error is the result; if it succeeded exactly the call [lop]
    on the layer follows, whose error is the result. *)
Definition baseThenLayer {B L} (bop lop : Op)
    (out : Res error * World B L * list Call) : Prop :=
  forall pre berr post,
    callsOf out = pre ++ CallFs Base bop berr :: post ->
    Forall isStatOrPromotion pre
    /\ match berr with
       | Some _ => post = [] /\ resultOf out = Val berr
       | None => exists lerr, post = [CallFs Layer lop lerr] /\ resultOf out = Val lerr
       end.

(** Any write-class flag (write-only, read-write, append, create or
    truncate) is present in [flag]. *)
Definition hasWriteFlag (flag : Z) : Prop :=
  Exists (fun f => Z.land flag f <> 0) [O_WRONLY; O_RDWR; O_APPEND; O_CREATE; O_TRUNC].

(** Starting in the world [w], after the calls [pre]: the verb is called on
    the base with [bverb]; if that fails the run ends there with the base's
    error, the layer neither called nor changed; otherwise the verb is called
    on the layer with [lverb], and what the layer answers is the result. *)
Definition writesThrough {B L}
    (bverb : B -> error * B) (lverb : L -> error * L) (bop lop : Op)
    (w : World B L) (pre : list Call)
    (out : Res error * World B L * list Call) : Prop :=
  match bverb (base w) with
  | (Some e, b1) =>
      out = (Val (Some e), setBase w b1, pre ++ [CallFs Base bop (Some e)])
  | (None, b1) =>
      match lverb (layer w) with
      | (lerr, l1) =>
          out = (Val lerr, setLayer (setBase w b1) l1,
                 pre ++ [CallFs Base bop None; CallFs Layer lop lerr])
      end
  end.

(** Starting in the world [w], after the calls [pre]: the base is opened
    with [bopen]; if that fails the run ends there with the base's error, the
    layer neither called nor changed; otherwise the layer is opened with
    [lopen]; if that fails the base's handle is closed and the layer's error
    returned; otherwise the result is a [UnionFile] of the two handles. *)
Definition fansOut {B L} `{Fs B} `{Fs L}
    (bopen : B -> Result Handle * B) (lopen : L -> Result Handle * L) (o : Op)
    (w : World B L) (pre : list Call)
    (out : Res (option File * error) * World B L * list Call) : Prop :=
  match bopen (base w) with
  | (Err e, b1) =>
      out = (Val (None, Some e), setBase w b1, pre ++ [CallFs Base o (Some e)])
  | (Ok bh, b1) =>
      match lopen (layer w) with
      | (Ok lh, l1) =>
          out = (Val (Some (UnionFile (Some bh) (Some lh)), None),
                 setLayer (setBase w b1) l1,
                 pre ++ [CallFs Base o None; CallFs Layer o None])
      | (Err e, l1) =>
          exists cerr b2,
            fsClose bh b1 = (cerr, b2)
            /\ out = (Val (None, Some e),
                      setBase (setLayer (setBase w b1) l1) b2,
                      pre ++ [CallFs Base o None; CallFs Layer o (Some e);
                              CallFs Base (OClose bh) cerr])
      end
  end.

(** ** Further properties of runs *)

(** The same world with the clock at [t]. *)
Definition setClock {B L} (w : World B L) (t : Time) : World B L :=
  mkWorld (base w) (layer w) (cacheTime w) t.

(** A [Stat] of the path [name], on either store. *)
Definition isStatOf (name : string) (c : Call) : Prop :=
  match c with
  | CallFs _ (OStat n) _ => n = name
  | _ => False
  end.

(** The calls of the watcher: [Stat]s, promotions and log lines. *)
Definition isWatcherCall (c : Call) : Prop :=
  match c with
  | CallFs _ (OStat _) _ => True
  | CallCopyToLayer _ _ => True
  | CallLog _ _ => True
  | _ => False
  end.

Definition isLog (c : Call) : Prop :=
  match c with
  | CallLog _ _ => True
  | _ => False
  end.

(** A call on the base other than [Stat]. *)
Definition actsOnBase (c : Call) : Prop :=
  match c with
  | CallFs Base (OStat _) _ => False
  | CallFs Base _ _ => True
  | _ => False
  end.

(** The test of the watcher's loop on a delivery: an event with the
    [fsnotify.Write] bit. *)
Definition isWriteEvent (msg : WatcherMsg) : bool :=
  match msg with
  | MsgEvent _ EOp => Z.land EOp fsnotify_Write =? fsnotify_Write
  | MsgError _ => false
  end.

(** Of a returned [(value, error)] pair exactly one is nil. *)
Definition oneNil {A} (p : option A * error) : Prop :=
  notNil (fst p) = negb (notNil (snd p)).

(** Wherever the run holds the call [lop] on the layer, that call is the
    last one and its error is the result of the run; and the call just
    before it is the call [bop] on the base, which succeeded, unless
    [skipped] holds, and then the call [bop] on the base is nowhere before
    it. *)
Definition layerOnlyAfterBase {B L} (bop lop : Op) (skipped : Prop)
    (out : Res error * World B L * list Call) : Prop :=
  forall pre lerr post,
    callsOf out = pre ++ CallFs Layer lop lerr :: post ->
    post = []
    /\ resultOf out = Val lerr
    /\ ((exists pre', pre = pre' ++ [CallFs Base bop None])
        \/ (skipped /\ forall e, ~ In (CallFs Base bop e) pre)).

(** The oracle classifies [name] in [w] as [st], with a nil error. *)
Definition classifiesAs {B L} `{Fs B} `{Fs L} `{Promote B L}
    (name : string) (w : World B L) (st : cacheState) : Prop :=
  exists fi, resultOf (cacheStatus name w) = Val (st, fi, None).

(** Every promotion in the calls [cs] is one of [name], and there is one only
    if [name] classifies as Stale or Miss in [w]. *)
Definition promotesOnlyStaleOrMiss {B L} `{Fs B} `{Fs L} `{Promote B L}
    (name : string) (w : World B L) (cs : list Call) : Prop :=
  forall n e,
    In (CallCopyToLayer n e) cs ->
    n = name /\ (classifiesAs name w cacheStale \/ classifiesAs name w cacheMiss).

(** The lines the loop of [monitor] logs for the errors the watcher
    delivers. *)
Definition watcherErrorLogs (msgs : list WatcherMsg) : list Call :=
  flat_map (fun msg =>
              match msg with
              | MsgError err => [CallLog "[MonCacheOnReadFs] Watcher error:" (Some err)]
              | MsgEvent _ _ => []
              end) msgs.

(** The paths promoted in a run, in order. *)
Definition promotedNames (cs : list Call) : list string :=
  flat_map (fun c =>
              match c with
              | CallCopyToLayer name _ => [name]
              | _ => []
              end) cs.

(** The paths of the write events among the deliveries, in order. *)
Definition writtenNames (msgs : list WatcherMsg) : list string :=
  flat_map (fun msg =>
              match msg with
              | MsgEvent EName EOp =>
                  if Z.land EOp fsnotify_Write =? fsnotify_Write then [EName] else []
              | MsgError _ => []
              end) msgs.

(** * The oracle *)

Ltac run_store :=
  repeat match goal with
    | |- context [fsStat ?n ?s] =>
        let r := fresh "r" in let s' := fresh "s" in let E := fresh "E" in
        destruct (fsStat n s) as [r s'] eqn:E; simpl
    end.

Section Oracle.
Context {B L : Type} `{FsB : Fs B} `{FsL : Fs L} `{P : Promote B L}.

Lemma cacheStatus_returns (name : string) (w : World B L) :
  exists st fi err w1 cs,
    cacheStatus name w = (Val (st, fi, err), w1, cs)
    /\ Forall isStat cs
    /\ match err with
       | Some _ => st = cacheMiss /\ fi = None
       | None =>
           match st with
           | cacheMiss => fi = None
           | _ => exists i, fi = Some i
           end
       end.
Proof.
  unfold cacheStatus, bind, onLayer, onBase, getCacheTime, timeNow, ret.
  destruct (fsStat name (layer w)) as [[lfi|e] l1] eqn:El; simpl.
  - destruct (cacheTime w =? 0) eqn:Ect; simpl.
    + do 5 eexists. split; [reflexivity|]. split; [repeat constructor|]. eauto.
    + destruct (Before (Add (ModTime lfi) (cacheTime w)) (clock w)) eqn:Eb; simpl.
      * destruct (fsStat name (base w)) as [[bfi|e] b1] eqn:Ebs; simpl.
        -- destruct (After (ModTime bfi) (ModTime lfi)); simpl;
             do 5 eexists; (split; [reflexivity|]); (split; [repeat constructor|]); eauto.
        -- do 5 eexists; (split; [reflexivity|]); (split; [repeat constructor|]); eauto.
      * do 5 eexists; (split; [reflexivity|]); (split; [repeat constructor|]); eauto.
  - destruct e as [n|a m|[p|]]; simpl; try destruct (n =? 2); simpl;
      do 5 eexists; (split; [reflexivity|]); (split; [repeat constructor|]); eauto.
Qed.

Lemma cacheStatus_calls_no_promotion (name : string) (w : World B L) :
  ~ promotionIn (callsOf (cacheStatus name w)).
Proof.
  destruct (cacheStatus_returns name w) as (st & fi & err & w1 & cs & E & Hcs & _).
  rewrite E. unfold callsOf. simpl. intros (n & e & Hin).
  rewrite List.Forall_forall in Hcs. apply (Hcs _ Hin).
Qed.

(** C1.  For a path the layer has an entry for ([layer.Stat] answers the
    metadata [lfi]): the oracle returns Hit with [lfi] when the window is
    zero or the entry's modification time plus the window is not yet past,
    and then only the layer was called, the base is as it was; when the
    window has elapsed the base is asked, and the oracle returns Local with
    [lfi] and a nil error if that fails, Stale with the base's metadata if
    the base's modification time is strictly later than the layer's, and
    Hit with [lfi] otherwise. *)
Theorem cacheStatus_layer_entry (name : string) (w : World B L)
    (lfi : FileInfo) (l1 : L) :
  fsStat name (layer w) = (Ok lfi, l1) ->
  ((cacheTime w = 0 \/ ~ (ModTime lfi + cacheTime w < clock w) ->
    cacheStatus name w
      = (Val (cacheHit, Some lfi, None), setLayer w l1,
         [CallFs Layer (OStat name) None])
    /\ base (worldOf (cacheStatus name w)) = base w
    /\ forall o e, ~ In (CallFs Base o e) (callsOf (cacheStatus name w)))
   /\
   (cacheTime w <> 0 -> ModTime lfi + cacheTime w < clock w ->
    forall rb b1, fsStat name (base w) = (rb, b1) ->
    exists st fi,
      cacheStatus name w
        = (Val (st, fi, None), setBase (setLayer w l1) b1,
           [CallFs Layer (OStat name) None; CallFs Base (OStat name) (errOf rb)])
      /\ (forall e, rb = Err e -> st = cacheLocal /\ fi = Some lfi)
      /\ (forall bfi, rb = Ok bfi -> ModTime bfi > ModTime lfi ->
            st = cacheStale /\ fi = Some bfi)
      /\ (forall bfi, rb = Ok bfi -> ModTime bfi <= ModTime lfi ->
            st = cacheHit /\ fi = Some lfi))).
Proof.
  intros Hl. split.
  - intros Hfresh.
    assert (E : cacheStatus name w
                = (Val (cacheHit, Some lfi, None), setLayer w l1,
                   [CallFs Layer (OStat name) None])).
    { unfold cacheStatus, bind, onLayer, onBase, getCacheTime, timeNow, ret.
      rewrite Hl. simpl.
      destruct (Z.eqb_spec (cacheTime w) 0) as [Hz|Hz]; [reflexivity|].
      unfold Before, Add. simpl.
      destruct (Z.ltb_spec (ModTime lfi + cacheTime w) (clock w)) as [Hlt|Hge];
        [exfalso; tauto | reflexivity]. }
    rewrite E. unfold worldOf, callsOf. simpl. repeat split.
    intros o e [Hin|[]]. discriminate Hin.
  - intros Hnz Hel rb b1 Hb.
    unfold cacheStatus, bind, onLayer, onBase, getCacheTime, timeNow, ret.
    rewrite Hl. simpl.
    destruct (Z.eqb_spec (cacheTime w) 0) as [Hz|Hz]; [contradiction|].
    unfold Before, Add. simpl.
    destruct (Z.ltb_spec (ModTime lfi + cacheTime w) (clock w)) as [Hlt|Hge]; [|lia].
    simpl. rewrite Hb. destruct rb as [bfi|e]; simpl.
    + unfold After. destruct (Z.gtb_spec (ModTime bfi) (ModTime lfi)) as [Hgt|Hle].
      * do 2 eexists. split; [reflexivity|]. repeat split; intros; try discriminate.
        -- congruence.
        -- exfalso. assert (bfi0 = bfi) by congruence. subst. lia.
        -- exfalso. assert (bfi0 = bfi) by congruence. subst. lia.
      * do 2 eexists. split; [reflexivity|]. repeat split; intros; try discriminate.
        -- exfalso. assert (bfi0 = bfi) by congruence. subst. lia.
        -- exfalso. assert (bfi0 = bfi) by congruence. subst. lia.
    + do 2 eexists. split; [reflexivity|]. repeat split; intros; discriminate.
Qed.

End Oracle.

(** * The dispatcher *)

Lemma split_after_prefix (P : Call -> Prop) (cs tail pre post : list Call) (x : Call) :
  Forall P cs -> ~ P x ->
  cs ++ tail = pre ++ x :: post ->
  exists pre', pre = cs ++ pre' /\ tail = pre' ++ x :: post.
Proof.
  intros Hcs Hx. revert pre.
  induction Hcs as [|c cs Hc Hcs IH]; intros pre E; simpl in E.
  - exists pre. split; [reflexivity|assumption].
  - destruct pre as [|p pre]; simpl in E.
    + exfalso. injection E as E1 _. subst. contradiction.
    + injection E as E1 E2. subst p.
      destruct (IH pre E2) as (pre' & -> & Ht).
      exists pre'. split; [reflexivity|assumption].
Qed.

Lemma stats_are_stat_or_promotion (cs : list Call) :
  Forall isStat cs -> Forall isStatOrPromotion cs.
Proof.
  intros H. eapply List.Forall_impl; [|exact H].
  intros [s [] e|n e|m e]; simpl; tauto.
Qed.

Lemma bind_run {B L A C} (m : M B L A) (k : A -> M B L C)
    (w w1 : World B L) (a : A) (cs1 : list Call) :
  m w = (Val a, w1, cs1) ->
  bind m k w = (let '(r, w2, cs2) := k a w1 in (r, w2, cs1 ++ cs2)).
Proof. intros E. unfold bind. rewrite E. destruct (k a w1) as [[r w2] cs2]. reflexivity. Qed.

(** Symbolic execution of the calls on the stores. *)
Ltac on_error_call c :=
  first
    [ match goal with H : c = _ |- _ => rewrite H; simpl end
    | let e := fresh "e" in let s := fresh "s" in let E := fresh "E" in
      destruct c as [[e|] s] eqn:E; simpl ].

Ltac on_result_call c :=
  first
    [ match goal with H : c = _ |- _ => rewrite H; simpl end
    | let v := fresh "v" in let e := fresh "e" in let s := fresh "s" in
      let E := fresh "E" in
      destruct c as [[v|e] s] eqn:E; simpl ].

Ltac on_promotion c :=
  first
    [ match goal with H : c = _ |- _ => rewrite H; simpl end
    | let e := fresh "e" in let b1 := fresh "b" in let l1 := fresh "l" in
      let E := fresh "E" in
      destruct c as [[[e|] b1] l1] eqn:E; simpl ].

Ltac exec_step :=
  match goal with
  | |- context [copyToLayerFn ?n ?b ?l] => on_promotion (copyToLayerFn n b l)
  | |- context [fsChtimes ?n ?a ?m ?s] => on_error_call (fsChtimes n a m s)
  | |- context [fsChmod ?n ?m ?s] => on_error_call (fsChmod n m s)
  | |- context [fsRename ?o ?n ?s] => on_error_call (fsRename o n s)
  | |- context [fsRemove ?n ?s] => on_error_call (fsRemove n s)
  | |- context [fsRemoveAll ?n ?s] => on_error_call (fsRemoveAll n s)
  | |- context [fsMkdir ?n ?m ?s] => on_error_call (fsMkdir n m s)
  | |- context [fsMkdirAll ?n ?m ?s] => on_error_call (fsMkdirAll n m s)
  | |- context [fsClose ?h ?s] => on_error_call (fsClose h s)
  | |- context [fsStat ?n ?s] => on_result_call (fsStat n s)
  | |- context [fsOpen ?n ?s] => on_result_call (fsOpen n s)
  | |- context [fsOpenFile ?n ?f ?m ?s] => on_result_call (fsOpenFile n f m s)
  | |- context [fsCreate ?n ?s] => on_result_call (fsCreate n s)
  end.

Ltac exec :=
  unfold copyToLayer, onBase, onLayer, bind, ret, logPrintln, deref, notNil, id;
  simpl; repeat exec_step.

(** Take a short list apart at a given call. *)
Ltac take_apart E :=
  match type of E with
  | _ = ?pre ++ _ :: _ =>
      destruct pre as [|? [|? [|? [|? ?]]]]; simpl in E; inversion E; subst; clear E
  end.

Section Dispatcher.
Context {B L : Type} `{FsB : Fs B} `{FsL : Fs L} `{P : Promote B L}.

Lemma cacheStatus_calls_stat (name : string) (w w1 : World B L)
    (r : Res (cacheState * option FileInfo * error)) (cs : list Call) :
  cacheStatus name w = (r, w1, cs) -> Forall isStat cs.
Proof.
  destruct (cacheStatus_returns name w) as (st & fi & err & w2 & cs2 & E & Hcs & _).
  rewrite E. intros H. injection H as _ _ <-. assumption.
Qed.

Lemma no_promotion_after_stats (cs rest : list Call) :
  Forall isStat cs -> ~ promotionIn rest -> ~ promotionIn (cs ++ rest).
Proof.
  intros Hcs Hrest (n & e & Hin). apply in_app_or in Hin as [Hin|Hin].
  - rewrite List.Forall_forall in Hcs. apply (Hcs _ Hin).
  - apply Hrest. exists n, e. assumption.
Qed.

(** The shape shared by the verbs that classify first. *)
Ltac verb_baseThenLayer name w :=
  let st := fresh "st" in let fi := fresh "fi" in let err := fresh "err" in
  let w1 := fresh "w" in let cs := fresh "cs" in let E := fresh "E" in
  let Hcs := fresh "Hcs" in let Hc := fresh "Hc" in let pre' := fresh "pfx" in
  destruct (cacheStatus_returns name w) as (st & fi & err & w1 & cs & E & Hcs & _);
  rewrite (bind_run _ _ _ _ _ _ E);
  intros pre berr post;
  destruct err as [?|]; simpl;
  [ unfold ret, callsOf; simpl; rewrite app_nil_r; intros Hc; exfalso;
    rewrite List.Forall_forall in Hcs;
    match type of Hc with _ = _ ++ ?x :: _ => apply (Hcs x) end;
    rewrite Hc; apply in_elt
  | destruct st; exec; unfold callsOf, resultOf; simpl; intros Hc;
    (apply (split_after_prefix isStat) in Hc; [|assumption|simpl; tauto]);
    destruct Hc as (pre' & -> & Hc); take_apart Hc;
    (split;
     [ apply Forall_app; split;
       [apply stats_are_stat_or_promotion; assumption | repeat constructor]
     | eauto ]) ].

Lemma Chtimes_baseThenLayer (name : string) (atime mtime : Time) (w : World B L) :
  baseThenLayer (OChtimes name atime mtime) (OChtimes name atime mtime)
    (Chtimes name atime mtime w).
Proof. unfold Chtimes. verb_baseThenLayer name w. Qed.

Lemma Chmod_baseThenLayer (name : string) (mode : FileMode) (w : World B L) :
  baseThenLayer (OChmod name mode) (OChmod name mode) (Chmod name mode w).
Proof. unfold Chmod. verb_baseThenLayer name w. Qed.

Lemma Rename_baseThenLayer (oldname newname : string) (w : World B L) :
  baseThenLayer (ORename oldname newname) (ORename oldname newname)
    (Rename oldname newname w).
Proof. unfold Rename. verb_baseThenLayer oldname w. Qed.

Lemma Remove_baseThenLayer (name : string) (w : World B L) :
  baseThenLayer (ORemove name) (ORemove name) (Remove name w).
Proof. unfold Remove. verb_baseThenLayer name w. Qed.

Lemma RemoveAll_baseThenLayer (name : string) (w : World B L) :
  baseThenLayer (ORemoveAll name) (ORemoveAll name) (RemoveAll name w).
Proof. unfold RemoveAll. verb_baseThenLayer name w. Qed.

Lemma Mkdir_baseThenLayer (name : string) (perm : FileMode) (w : World B L) :
  baseThenLayer (OMkdir name perm) (OMkdirAll name perm) (Mkdir name perm w).
Proof.
  unfold Mkdir. intros pre berr post. exec; unfold callsOf, resultOf; simpl;
    intros Hc; take_apart Hc; (split; [constructor | eauto]).
Qed.

Lemma MkdirAll_baseThenLayer (name : string) (perm : FileMode) (w : World B L) :
  baseThenLayer (OMkdirAll name perm) (OMkdirAll name perm) (MkdirAll name perm w).
Proof.
  unfold MkdirAll. intros pre berr post. exec; unfold callsOf, resultOf; simpl;
    intros Hc; take_apart Hc; (split; [constructor | eauto]).
Qed.

(** C2, amended.  With a window of one hour, a layer entry of time [T], a
    base entry of time [T + 2h] and the clock at [T + 1h + 1s], the oracle
    returns Stale with the base's metadata, and [Stat] returns that
    metadata, of time [T + 2h], having called nothing but the two [Stat]s
    of the oracle: it performs no promotion. *)
Theorem Stat_stale_returns_base_metadata (name : string) (w : World B L)
    (T : Time) (lfi bfi : FileInfo) (l1 : L) (b1 : B) :
  cacheTime w = Hour ->
  clock w = T + Hour + Second ->
  fsStat name (layer w) = (Ok lfi, l1) ->
  ModTime lfi = T ->
  fsStat name (base w) = (Ok bfi, b1) ->
  ModTime bfi = T + 2 * Hour ->
  cacheStatus name w
    = (Val (cacheStale, Some bfi, None), setBase (setLayer w l1) b1,
       [CallFs Layer (OStat name) None; CallFs Base (OStat name) None])
  /\ Stat name w
     = (Val (Some bfi, None), setBase (setLayer w l1) b1,
        [CallFs Layer (OStat name) None; CallFs Base (OStat name) None])
  /\ ModTime bfi = T + 2 * Hour
  /\ ~ promotionIn (callsOf (Stat name w)).
Proof.
  intros Hct Hclock Hl Hlt Hb Hbt.
  assert (E : cacheStatus name w
              = (Val (cacheStale, Some bfi, None), setBase (setLayer w l1) b1,
                 [CallFs Layer (OStat name) None; CallFs Base (OStat name) None])).
  { unfold cacheStatus, bind, onLayer, onBase, getCacheTime, timeNow, ret.
    rewrite Hl. simpl. rewrite Hct. simpl.
    unfold Before, Add. rewrite Hlt, Hclock.
    replace (T + Hour <? T + Hour + Second) with true
      by (symmetry; apply Z.ltb_lt; unfold Second; lia).
    simpl. rewrite Hb. simpl. unfold After. rewrite Hbt.
    replace (T + 2 * Hour >? T) with true
      by (symmetry; apply Z.gtb_lt; unfold Hour, Second; lia).
    reflexivity. }
  assert (ES : Stat name w
               = (Val (Some bfi, None), setBase (setLayer w l1) b1,
                  [CallFs Layer (OStat name) None; CallFs Base (OStat name) None])).
  { unfold Stat. rewrite (bind_run _ _ _ _ _ _ E). reflexivity. }
  repeat split; try assumption.
  rewrite ES. unfold callsOf. simpl.
  intros (n & e & [Hin|[Hin|[]]]); discriminate Hin.
Qed.

(** C3, amended.  On a path that classifies as Stale or Miss, [Chtimes],
    [Chmod] and [Rename] first promote the path and apply the verb to the
    base only after a successful promotion (a failed promotion ends the
    call with its error); [Remove] and [RemoveAll] apply the verb to the
    base at once and promote nothing. *)
Theorem stale_or_miss_promotion (name : string) (w w1 : World B L)
    (st : cacheState) (fi : option FileInfo) (cs : list Call) :
  cacheStatus name w = (Val (st, fi, None), w1, cs) ->
  st = cacheStale \/ st = cacheMiss ->
  (forall atime mtime,
      promotesThenBase name (OChtimes name atime mtime) cs (Chtimes name atime mtime w))
  /\ (forall mode, promotesThenBase name (OChmod name mode) cs (Chmod name mode w))
  /\ (forall newname,
        promotesThenBase name (ORename name newname) cs (Rename name newname w))
  /\ baseWithoutPromotion (ORemove name) cs (Remove name w)
  /\ baseWithoutPromotion (ORemoveAll name) cs (RemoveAll name w).
Proof.
  intros E Hst. pose proof (cacheStatus_calls_stat _ _ _ _ _ E) as Hcs.
  repeat split; intros.
  1: unfold Chtimes. 2: unfold Chmod. 3: unfold Rename.
  4,5: unfold Remove. 6,7: unfold RemoveAll.
  all: rewrite (bind_run _ _ _ _ _ _ E).
  all: destruct Hst as [-> | ->]; exec; unfold promotesThenBase, callsOf, resultOf; simpl.
  all: try (do 2 eexists; split; [reflexivity|]; simpl; eauto; fail).
  all: try (do 2 eexists; reflexivity).
  all: apply no_promotion_after_stats; [assumption|].
  all: intros (n & e' & Hin); simpl in Hin;
    repeat (destruct Hin as [Hin|Hin]; [discriminate Hin|]); exact Hin.
Qed.

(** C4, amended.  For [Chtimes], [Chmod], [Rename], [Remove], [RemoveAll],
    [Mkdir] and [MkdirAll]: an error of the verb on the base ends the call
    with that error, and the verb is never applied to the layer; before the
    base call the layer has only been asked by the oracle's [Stat] and, on
    a Stale or Miss path of [Chtimes], [Chmod] and [Rename], written by the
    promotion.  When the verb succeeds on the base, the same verb is then
    applied to the layer and its outcome returned, [Mkdir] applying
    [MkdirAll] to the layer.  [Mkdir] and [MkdirAll] call the base first,
    and when it fails the layer is not called and stays as it was.

    The last part of the statement gives the runs exactly.  [Mkdir] and
    [MkdirAll] write through from the world they are called in, nothing
    before.  After the oracle returned a state with a nil error and the
    calls [cs]: [Remove] and [RemoveAll] on Hit, Stale and Miss, and
    [Chtimes], [Chmod] and [Rename] on Hit, write through right after [cs],
    from the world the oracle left; [Chtimes], [Chmod] and [Rename] on Stale
    and Miss write through after [cs] and the successful promotion, from the
    world the promotion left. *)
Theorem base_error_aborts_before_layer (w : World B L) :
  (forall name atime mtime,
      baseThenLayer (OChtimes name atime mtime) (OChtimes name atime mtime)
        (Chtimes name atime mtime w))
  /\ (forall name mode,
        baseThenLayer (OChmod name mode) (OChmod name mode) (Chmod name mode w))
  /\ (forall oldname newname,
        baseThenLayer (ORename oldname newname) (ORename oldname newname)
          (Rename oldname newname w))
  /\ (forall name, baseThenLayer (ORemove name) (ORemove name) (Remove name w))
  /\ (forall name,
        baseThenLayer (ORemoveAll name) (ORemoveAll name) (RemoveAll name w))
  /\ (forall name perm,
        baseThenLayer (OMkdir name perm) (OMkdirAll name perm) (Mkdir name perm w)
        /\ exists berr post,
             callsOf (Mkdir name perm w) = CallFs Base (OMkdir name perm) berr :: post
             /\ (berr <> None -> post = [] /\ layer (worldOf (Mkdir name perm w)) = layer w))
  /\ (forall name perm,
        baseThenLayer (OMkdirAll name perm) (OMkdirAll name perm) (MkdirAll name perm w)
        /\ exists berr post,
             callsOf (MkdirAll name perm w) = CallFs Base (OMkdirAll name perm) berr :: post
             /\ (berr <> None -> post = [] /\ layer (worldOf (MkdirAll name perm w)) = layer w))
  /\ (forall name perm,
        writesThrough (fsMkdir name perm) (fsMkdirAll name perm)
          (OMkdir name perm) (OMkdirAll name perm) w [] (Mkdir name perm w)
        /\ writesThrough (fsMkdirAll name perm) (fsMkdirAll name perm)
             (OMkdirAll name perm) (OMkdirAll name perm) w [] (MkdirAll name perm w))
  /\ (forall name st fi w1 cs,
        cacheStatus name w = (Val (st, fi, None), w1, cs) ->
        (st <> cacheLocal ->
         writesThrough (fsRemove name) (fsRemove name) (ORemove name) (ORemove name)
           w1 cs (Remove name w)
         /\ writesThrough (fsRemoveAll name) (fsRemoveAll name)
              (ORemoveAll name) (ORemoveAll name) w1 cs (RemoveAll name w))
        /\ (st = cacheHit ->
            (forall atime mtime,
                writesThrough (fsChtimes name atime mtime) (fsChtimes name atime mtime)
                  (OChtimes name atime mtime) (OChtimes name atime mtime)
                  w1 cs (Chtimes name atime mtime w))
            /\ (forall mode,
                  writesThrough (fsChmod name mode) (fsChmod name mode)
                    (OChmod name mode) (OChmod name mode) w1 cs (Chmod name mode w))
            /\ (forall newname,
                  writesThrough (fsRename name newname) (fsRename name newname)
                    (ORename name newname) (ORename name newname)
                    w1 cs (Rename name newname w)))
        /\ (st = cacheStale \/ st = cacheMiss ->
            forall b1 l1,
              copyToLayerFn name (base w1) (layer w1) = (None, b1, l1) ->
              (forall atime mtime,
                  writesThrough (fsChtimes name atime mtime) (fsChtimes name atime mtime)
                    (OChtimes name atime mtime) (OChtimes name atime mtime)
                    (setLayer (setBase w1 b1) l1) (cs ++ [CallCopyToLayer name None])
                    (Chtimes name atime mtime w))
              /\ (forall mode,
                    writesThrough (fsChmod name mode) (fsChmod name mode)
                      (OChmod name mode) (OChmod name mode)
                      (setLayer (setBase w1 b1) l1) (cs ++ [CallCopyToLayer name None])
                      (Chmod name mode w))
              /\ (forall newname,
                    writesThrough (fsRename name newname) (fsRename name newname)
                      (ORename name newname) (ORename name newname)
                      (setLayer (setBase w1 b1) l1) (cs ++ [CallCopyToLayer name None])
                      (Rename name newname w)))).
Proof.
  split; [intros; apply Chtimes_baseThenLayer|].
  split; [intros; apply Chmod_baseThenLayer|].
  split; [intros; apply Rename_baseThenLayer|].
  split; [intros; apply Remove_baseThenLayer|].
  split; [intros; apply RemoveAll_baseThenLayer|].
  split; [intros name perm|split; [intros name perm|split]].
  - split; [apply Mkdir_baseThenLayer|].
    unfold Mkdir. exec; unfold callsOf, worldOf; simpl; do 2 eexists;
      (split; [reflexivity|]); intros Hne; [split; reflexivity | congruence | congruence].
  - split; [apply MkdirAll_baseThenLayer|].
    unfold MkdirAll. exec; unfold callsOf, worldOf; simpl; do 2 eexists;
      (split; [reflexivity|]); intros Hne; [split; reflexivity | congruence | congruence].
  - intros name perm. unfold writesThrough, Mkdir, MkdirAll.
    split; exec; reflexivity.
  - intros name st fi w1 cs E. unfold writesThrough. split; [|split].
    + intros Hst. unfold Remove, RemoveAll. rewrite !(bind_run _ _ _ _ _ _ E).
      split; destruct st; try contradiction; exec; reflexivity.
    + intros ->. split; [|split]; intros.
      1: unfold Chtimes. 2: unfold Chmod. 3: unfold Rename.
      all: rewrite (bind_run _ _ _ _ _ _ E); exec; reflexivity.
    + intros Hst b1 l1 Hc. split; [|split]; intros.
      1: unfold Chtimes. 2: unfold Chmod. 3: unfold Rename.
      all: rewrite (bind_run _ _ _ _ _ _ E); destruct Hst as [-> | ->];
        unfold copyToLayer, bind, ret, notNil; simpl; rewrite Hc; simpl;
        exec; rewrite <- ?app_assoc; reflexivity.
Qed.

(** C10.  On a path that classifies as Miss, when the base removes the
    path, [Remove] and [RemoveAll] then call the same removal on the layer
    and return what the layer answers, error included; the base stays as
    the removal left it. *)
Theorem Remove_miss_returns_layer_answer (name : string) (w w1 : World B L)
    (fi : option FileInfo) (cs : list Call) :
  cacheStatus name w = (Val (cacheMiss, fi, None), w1, cs) ->
  (forall b1 lerr l1,
      fsRemove name (base w1) = (None, b1) ->
      fsRemove name (layer w1) = (lerr, l1) ->
      Remove name w
        = (Val lerr, setLayer (setBase w1 b1) l1,
           cs ++ [CallFs Base (ORemove name) None; CallFs Layer (ORemove name) lerr]))
  /\ (forall b1 lerr l1,
        fsRemoveAll name (base w1) = (None, b1) ->
        fsRemoveAll name (layer w1) = (lerr, l1) ->
        RemoveAll name w
          = (Val lerr, setLayer (setBase w1 b1) l1,
             cs ++ [CallFs Base (ORemoveAll name) None;
                    CallFs Layer (ORemoveAll name) lerr])).
Proof.
  intros E. split; intros b1 lerr l1 Hb Hl.
  - unfold Remove. rewrite (bind_run _ _ _ _ _ _ E).
    unfold onBase, onLayer, bind, ret, notNil, id. simpl.
    rewrite Hb. simpl. rewrite Hl. reflexivity.
  - unfold RemoveAll. rewrite (bind_run _ _ _ _ _ _ E).
    unfold onBase, onLayer, bind, ret, notNil, id. simpl.
    rewrite Hb. simpl. rewrite Hl. reflexivity.
Qed.

Lemma writeMask_spec (flag : Z) :
  hasWriteFlag flag <-> Z.land flag writeMask <> 0.
Proof.
  unfold hasWriteFlag, writeMask.
  rewrite !Z.land_lor_distr_r, !Z.lor_eq_0_iff.
  rewrite !Exists_cons, Exists_nil.
  destruct (Z.eq_dec (Z.land flag O_WRONLY) 0), (Z.eq_dec (Z.land flag O_RDWR) 0),
    (Z.eq_dec (Z.land flag O_APPEND) 0), (Z.eq_dec (Z.land flag O_CREATE) 0),
    (Z.eq_dec (Z.land flag O_TRUNC) 0); tauto.
Qed.

Lemma Create_fansOut (name : string) (w : World B L) :
  fansOut (fsCreate name) (fsCreate name) (OCreate name) w [] (Create name w).
Proof.
  unfold fansOut, Create. exec; try reflexivity.
  all: do 2 eexists; split; reflexivity.
Qed.

Lemma OpenFile_write_from (name : string) (flag : Z) (perm : FileMode)
    (w w1 : World B L) (st : cacheState) (fi : option FileInfo) (cs : list Call) :
  Z.land flag writeMask <> 0 ->
  cacheStatus name w = (Val (st, fi, None), w1, cs) ->
  (st = cacheLocal \/ st = cacheHit ->
   fansOut (fsOpenFile name flag perm) (fsOpenFile name flag perm)
     (OOpenFile name flag perm) w1 cs (OpenFile name flag perm w))
  /\ (st = cacheStale \/ st = cacheMiss ->
      forall cerr b1 l1,
        copyToLayerFn name (base w1) (layer w1) = (cerr, b1, l1) ->
        match cerr with
        | Some _ =>
            OpenFile name flag perm w
              = (Val (None, cerr), setLayer (setBase w1 b1) l1,
                 cs ++ [CallCopyToLayer name cerr])
        | None =>
            fansOut (fsOpenFile name flag perm) (fsOpenFile name flag perm)
              (OOpenFile name flag perm) (setLayer (setBase w1 b1) l1)
              (cs ++ [CallCopyToLayer name None]) (OpenFile name flag perm w)
        end).
Proof.
  intros Hflag E.
  assert (Hm : (Z.land flag writeMask =? 0) = false) by (apply Z.eqb_neq; assumption).
  split.
  - intros Hst. unfold OpenFile. rewrite (bind_run _ _ _ _ _ _ E).
    unfold fansOut. rewrite Hm.
    destruct Hst as [-> | ->]; exec; try reflexivity;
      do 2 eexists; split; reflexivity.
  - intros Hst cerr b1 l1 Hc. unfold OpenFile. rewrite (bind_run _ _ _ _ _ _ E).
    unfold fansOut. rewrite Hm.
    destruct Hst as [-> | ->];
      unfold copyToLayer, bind, ret, notNil; simpl; rewrite Hc;
      (destruct cerr as [e|]; simpl; [reflexivity|]);
      exec; rewrite <- ?app_assoc; simpl; try reflexivity;
      do 2 eexists; (split; [reflexivity|]); rewrite <- ?app_assoc; reflexivity.
Qed.

(** C5, amended.  [Create] opens the base and then the layer and returns a
    [UnionFile] of the two handles; if the base fails the call ends with
    its error and the layer is neither called nor changed; if the layer
    fails after the base succeeded, the base's handle is closed and the
    layer's error returned.  [OpenFile] with any write-class flag does the
    same from the point where the oracle has returned without error and
    the promotion it makes on a Stale or Miss path has succeeded, the layer
    holding by then the promoted copy; a failed promotion ends the call
    with its error and nothing is opened. *)
Theorem Create_OpenFile_fan_out (name : string) (w : World B L) :
  fansOut (fsCreate name) (fsCreate name) (OCreate name) w [] (Create name w)
  /\ forall flag perm st fi w1 cs,
       hasWriteFlag flag ->
       cacheStatus name w = (Val (st, fi, None), w1, cs) ->
       (st = cacheLocal \/ st = cacheHit ->
        fansOut (fsOpenFile name flag perm) (fsOpenFile name flag perm)
          (OOpenFile name flag perm) w1 cs (OpenFile name flag perm w))
       /\ (st = cacheStale \/ st = cacheMiss ->
           forall cerr b1 l1,
             copyToLayerFn name (base w1) (layer w1) = (cerr, b1, l1) ->
             match cerr with
             | Some _ =>
                 OpenFile name flag perm w
                   = (Val (None, cerr), setLayer (setBase w1 b1) l1,
                      cs ++ [CallCopyToLayer name cerr])
             | None =>
                 fansOut (fsOpenFile name flag perm) (fsOpenFile name flag perm)
                   (OOpenFile name flag perm) (setLayer (setBase w1 b1) l1)
                   (cs ++ [CallCopyToLayer name None]) (OpenFile name flag perm w)
             end).
Proof.
  split; [apply Create_fansOut|].
  intros flag perm st fi w1 cs Hflag E.
  apply (OpenFile_write_from name flag perm w w1 st fi cs);
    [apply writeMask_spec; assumption | assumption].
Qed.

(** C6, amended.  [Open] on a directory.  On Hit and Stale (the oracle's
    metadata is a directory) the base and then the layer are opened and a
    [UnionFile] of the two handles is returned, also when only one of the
    two was opened; when both fail the layer's error is returned.  On Miss
    (the base's [Stat] answers a directory) only the base is opened and
    what it answers is returned as it is: the layer is not opened and no
    [UnionFile] is made. *)
Theorem Open_directory (name : string) (w w1 : World B L)
    (st : cacheState) (fi : option FileInfo) (cs : list Call) :
  cacheStatus name w = (Val (st, fi, None), w1, cs) ->
  (st = cacheHit \/ st = cacheStale ->
   forall i, fi = Some i -> IsDir i = true ->
   forall rb b1 rl l1,
     fsOpen name (base w1) = (rb, b1) ->
     fsOpen name (layer w1) = (rl, l1) ->
     worldOf (Open name w) = setLayer (setBase w1 b1) l1
     /\ callsOf (Open name w)
        = cs ++ [CallFs Base (OOpen name) (errOf rb); CallFs Layer (OOpen name) (errOf rl)]
     /\ (forall bh, rb = Ok bh ->
           resultOf (Open name w) = Val (Some (UnionFile (Some bh) (valOf rl)), None))
     /\ (forall lh, rl = Ok lh ->
           resultOf (Open name w) = Val (Some (UnionFile (valOf rb) (Some lh)), None))
     /\ (forall eb el, rb = Err eb -> rl = Err el ->
           resultOf (Open name w) = Val (None, Some el)))
  /\ (st = cacheMiss ->
      forall bfi b1 r b2,
        fsStat name (base w1) = (Ok bfi, b1) -> IsDir bfi = true ->
        fsOpen name b1 = (r, b2) ->
        Open name w
          = (Val (option_map (StoreFile Base) (valOf r), errOf r), setBase w1 b2,
             cs ++ [CallFs Base (OStat name) None; CallFs Base (OOpen name) (errOf r)])).
Proof.
  intros E. split.
  - intros Hst i -> Hdir rb b1 rl l1 Hb Hl.
    unfold Open. rewrite (bind_run _ _ _ _ _ _ E).
    destruct Hst as [-> | ->];
      unfold onBase, onLayer, deref, bind, ret, notNil; simpl; rewrite Hdir; simpl;
      rewrite Hb; simpl; rewrite Hl; simpl;
      destruct rb as [bh|eb], rl as [lh|el]; unfold worldOf, callsOf, resultOf; simpl;
      repeat split; intros; simplify_eq; reflexivity.
  - intros -> bfi b1 r b2 Hs Hdir Ho.
    unfold Open. rewrite (bind_run _ _ _ _ _ _ E).
    unfold onBase, onLayer, deref, bind, ret, notNil. simpl.
    rewrite Hs. simpl. rewrite Hdir. simpl. rewrite Ho. simpl.
    reflexivity.
Qed.

End Dispatcher.

(** * The watcher and the metadata invariant *)

Section Watcher.
Context {B L : Type} `{FsB : Fs B} `{FsL : Fs L} `{P : Promote B L}.

(** What the oracle returns when the layer's [Stat] fails with [e]: Miss
    with a nil error only for the bare [ENOENT]; a [PathError] is returned
    as the error whatever it wraps, and any other error is replaced by a
    nil [PathError] pointer. *)
Lemma cacheStatus_layer_error (name : string) (w : World B L) (e : errval) (l1 : L) :
  fsStat name (layer w) = (Err e, l1) ->
  cacheStatus name w
    = (Val (cacheMiss, None,
            if errval_eqb e ENOENT then None
            else match e with
                 | PathErrorPtr _ => Some e
                 | _ => Some (PathErrorPtr None)
                 end),
       setLayer w l1, [CallFs Layer (OStat name) (Some e)]).
Proof.
  intros Hl. unfold cacheStatus, bind, onLayer, ret. rewrite Hl. simpl.
  destruct e as [n|a m|[p|]]; simpl; try destruct (n =? 2); reflexivity.
Qed.

Lemma monitorStep_continues (msg : WatcherMsg) (w : World B L) :
  resultOf (monitorStep msg w) = Val true.
Proof.
  destruct msg as [name op|e]; simpl; [|reflexivity].
  destruct (Z.land op fsnotify_Write =? fsnotify_Write); [|reflexivity].
  destruct (cacheStatus_returns name w) as (st & fi & err & w1 & cs & E & _ & Hinv).
  rewrite (bind_run _ _ _ _ _ _ E).
  destruct err as [e|]; [reflexivity|].
  destruct st; try reflexivity; destruct Hinv as (i & ->);
    unfold deref, bind, ret; simpl; destruct (IsDir i); simpl; try reflexivity;
    exec; reflexivity.
Qed.

Lemma monitorLoop_handles_all (msgs : list WatcherMsg) (w : World B L) :
  resultOf (monitorLoop msgs w) = Val [].
Proof.
  revert w. induction msgs as [|msg rest IH]; intros w; [reflexivity|].
  simpl. pose proof (monitorStep_continues msg w) as Hgo.
  unfold bind. destruct (monitorStep msg w) as [[r w1] cs1].
  unfold resultOf in Hgo. simpl in Hgo. subst r.
  specialize (IH w1). destruct (monitorLoop rest w1) as [[r2 w2] cs2].
  exact IH.
Qed.

Lemma monitorLoop_cons (msg : WatcherMsg) (rest : list WatcherMsg) (w : World B L) :
  monitorLoop (msg :: rest) w
  = (let '(_, w1, cs1) := monitorStep msg w in
     let '(r, w2, cs2) := monitorLoop rest w1 in
     (r, w2, cs1 ++ cs2)).
Proof.
  simpl. unfold bind. pose proof (monitorStep_continues msg w) as Hgo.
  destruct (monitorStep msg w) as [[r w1] cs1].
  unfold resultOf in Hgo. simpl in Hgo. subst r. reflexivity.
Qed.

Lemma Open_returns (name : string) (w : World B L) :
  resultOf (Open name w) <> Panic.
Proof.
  destruct (cacheStatus_returns name w) as (st & fi & err & w1 & cs & E & _ & Hinv).
  unfold Open. rewrite (bind_run _ _ _ _ _ _ E).
  destruct err as [e|]; [discriminate|].
  destruct st; try destruct Hinv as (i & ->);
    unfold deref, bind, ret; simpl; try destruct (IsDir i); simpl;
    exec; try destruct (IsDir _); exec; unfold resultOf; simpl; discriminate.
Qed.

(** C8.  For a write event on the path [name]: the oracle reclassifies the
    path; if it fails, the error is logged and the loop goes on; if the
    state is Local, Stale or Hit and the metadata is not a directory, the
    path is promoted again, a failure of which is logged, and the loop goes
    on.  No delivery, whatever happens while it is handled, makes the loop
    stop: run on any deliveries it handles them all, which is to say that
    [monitor] on no delivery does nothing, and on a delivery followed by
    others it is the step on that delivery followed, from the world the step
    left, by [monitor] on the others, the calls of the two in that order.
    Only when the watcher could not be made does [monitor] log the error and
    handle none. *)
Theorem monitor_handles_every_event :
  (forall name op (w w1 : World B L) st fi err cs,
      Z.land op fsnotify_Write = fsnotify_Write ->
      cacheStatus name w = (Val (st, fi, err), w1, cs) ->
      (exists rest, callsOf (monitorStep (MsgEvent name op) w) = cs ++ rest)
      /\ (err <> None ->
          monitorStep (MsgEvent name op) w
            = (Val true, w1, cs ++ [CallLog "[MonCacheOnReadFs] Cache status error:" err]))
      /\ (err = None ->
          st = cacheLocal \/ st = cacheStale \/ st = cacheHit ->
          forall i, fi = Some i -> IsDir i = false ->
          forall cerr b1 l1,
            copyToLayerFn name (base w1) (layer w1) = (cerr, b1, l1) ->
            monitorStep (MsgEvent name op) w
              = (Val true, setLayer (setBase w1 b1) l1,
                 cs ++ CallCopyToLayer name cerr
                    :: match cerr with
                       | Some _ => [CallLog "[MonCacheOnReadFs] Cache error:" cerr]
                       | None => []
                       end)))
  /\ (forall msg (w : World B L), resultOf (monitorStep msg w) = Val true)
  /\ (forall msgs (w : World B L), resultOf (monitor None msgs w) = Val [])
  /\ (forall e msgs (w : World B L),
        monitor (Some e) msgs w
          = (Val msgs, w, [CallLog "[MonCacheOnReadFs] NewWatcher error:" (Some e)]))
  /\ (forall (w : World B L), monitor None [] w = (Val [], w, []))
  /\ (forall msg rest (w : World B L),
        monitor None (msg :: rest) w
        = (let '(_, w1, cs1) := monitorStep msg w in
           let '(r, w2, cs2) := monitor None rest w1 in
           (r, w2, cs1 ++ cs2))).
Proof.
  split; [|split; [apply monitorStep_continues|split;
                   [intros; apply monitorLoop_handles_all
                   |split; [reflexivity|split; [reflexivity|]]]]].
  2: { intros msg rest w. apply monitorLoop_cons. }
  intros name op w w1 st fi err cs Hop E.
  assert (Hw : (Z.land op fsnotify_Write =? fsnotify_Write) = true)
    by (apply Z.eqb_eq; assumption).
  unfold monitorStep. rewrite Hw. rewrite (bind_run _ _ _ _ _ _ E).
  split; [|split].
  - simpl.
    match goal with
    | |- exists rest, callsOf (match ?x with _ => _ end) = _ =>
        destruct x as [[r w2] cs2]
    end.
    exists cs2. reflexivity.
  - intros Herr. destruct err as [e|]; [reflexivity|contradiction].
  - intros -> Hst i -> Hdir cerr b1 l1 Hc.
    destruct Hst as [-> | [-> | ->]];
      unfold copyToLayer, deref, logPrintln, bind, ret, notNil; simpl;
      rewrite Hdir; simpl; rewrite Hc; simpl;
      destruct cerr as [e|]; reflexivity.
Qed.

(** C9.  The oracle always returns; when its error is nil, the metadata is
    non-nil exactly in the states Hit, Local and Stale and nil exactly in
    the state Miss.  So the callers that use the metadata of a non-Miss
    state never meet a nil one: the watcher's step and [Open] never panic,
    and [Stat] on a non-Miss state returns non-nil metadata. *)
Theorem cacheStatus_metadata_invariant :
  (forall name (w : World B L),
      exists st fi err w1 cs,
        cacheStatus name w = (Val (st, fi, err), w1, cs)
        /\ (err = None ->
            (fi <> None <-> st = cacheHit \/ st = cacheLocal \/ st = cacheStale)
            /\ (fi = None <-> st = cacheMiss)))
  /\ (forall msg (w : World B L), resultOf (monitorStep msg w) <> Panic)
  /\ (forall name (w : World B L), resultOf (Open name w) <> Panic)
  /\ (forall name (w w1 : World B L) st fi cs,
        cacheStatus name w = (Val (st, fi, None), w1, cs) ->
        st <> cacheMiss ->
        exists i, fi = Some i /\ Stat name w = (Val (Some i, None), w1, cs)).
Proof.
  split; [|split; [|split]].
  - intros name w.
    destruct (cacheStatus_returns name w) as (st & fi & err & w1 & cs & E & _ & Hinv).
    exists st, fi, err, w1, cs. split; [assumption|].
    intros ->. destruct st; try destruct Hinv as (i & ->); subst;
      (split; split; intros H; try discriminate; try congruence;
       try (destruct H as [H|[H|H]]; discriminate H); eauto).
  - intros msg w. rewrite monitorStep_continues. discriminate.
  - apply Open_returns.
  - intros name w w1 st fi cs E Hst.
    destruct (cacheStatus_returns name w) as (st' & fi' & err' & w1' & cs' & E' & _ & Hinv).
    rewrite E in E'. injection E' as <- <- <- <- <-.
    unfold Stat. rewrite (bind_run _ _ _ _ _ _ E).
    destruct st; try contradiction; destruct Hinv as (i & ->);
      exists i; simpl; unfold ret; rewrite app_nil_r; (split; reflexivity).
Qed.

End Watcher.

(** * Runs on the concrete worlds *)

(** Evaluate the store call a hypothesis branches on. *)
Ltac eval_scrutinee H :=
  match type of H with
  | context [match ?x with _ => _ end] =>
      let v := eval vm_compute in x in
      change x with v in H; cbv beta iota in H
  end.

Lemma cacheStatus_layer_entry_witness :
  resultOf (cacheStatus "/b" worldUnlimited) = Val (cacheHit, Some (aFile "/b" T0), None)
  /\ callsOf (cacheStatus "/b" worldUnlimited) = [CallFs Layer (OStat "/b") None].
Proof.
  assert (Hl : fsStat "/b" (layer worldUnlimited)
               = (Ok (aFile "/b" T0), layer worldUnlimited))
    by (vm_compute; reflexivity).
  destruct (cacheStatus_layer_entry "/b" worldUnlimited _ _ Hl) as [Hfresh _].
  destruct (Hfresh (or_introl eq_refl)) as (E & _ & _).
  rewrite E. split; reflexivity.
Defined.

(** C2 as stated fails: in its scenario the path classifies as Stale, and
    [Stat] performs no promotion and leaves the layer as it was. *)
Lemma Stat_stale_promotes_nothing :
  resultOf (cacheStatus "/a" worldStale)
    = Val (cacheStale, Some (aFile "/a" (T0 + 2 * Hour)), None)
  /\ callsOf (Stat "/a" worldStale)
     = [CallFs Layer (OStat "/a") None; CallFs Base (OStat "/a") None]
  /\ ~ promotionIn (callsOf (Stat "/a" worldStale))
  /\ layer (worldOf (Stat "/a" worldStale)) = layer worldStale.
Proof.
  split; [vm_compute; reflexivity|]. split; [vm_compute; reflexivity|].
  split; [|vm_compute; reflexivity].
  intros (n & e & Hin). vm_compute in Hin.
  destruct Hin as [Hin|[Hin|[]]]; discriminate Hin.
Qed.

Lemma Stat_stale_returns_base_metadata_witness :
  Stat "/a" worldStale
    = (Val (Some (aFile "/a" (T0 + 2 * Hour)), None), worldStale,
       [CallFs Layer (OStat "/a") None; CallFs Base (OStat "/a") None]).
Proof.
  assert (Hl : fsStat "/a" (layer worldStale) = (Ok (aFile "/a" T0), layer worldStale))
    by (vm_compute; reflexivity).
  assert (Hb : fsStat "/a" (base worldStale)
               = (Ok (aFile "/a" (T0 + 2 * Hour)), base worldStale))
    by (vm_compute; reflexivity).
  destruct (Stat_stale_returns_base_metadata "/a" worldStale T0 _ _ _ _
              eq_refl eq_refl Hl eq_refl Hb eq_refl) as (_ & E & _ & _).
  exact E.
Defined.

(** C3 as stated fails: on the Miss path [/a], [Remove] applies the removal
    to the base without any promotion; so does [RemoveAll], and so do both on
    the Stale path of [worldStale]. *)
Lemma Remove_promotes_nothing :
  resultOf (cacheStatus "/a" worldMiss) = Val (cacheMiss, None, None)
  /\ callsOf (Remove "/a" worldMiss)
     = [CallFs Layer (OStat "/a") (Some ENOENT); CallFs Base (ORemove "/a") None;
        CallFs Layer (ORemove "/a") (Some ENOENT)]
  /\ ~ promotionIn (callsOf (Remove "/a" worldMiss))
  /\ ~ promotionIn (callsOf (RemoveAll "/a" worldMiss))
  /\ ~ promotionIn (callsOf (Remove "/a" worldStale))
  /\ ~ promotionIn (callsOf (RemoveAll "/a" worldStale)).
Proof.
  split; [vm_compute; reflexivity|]. split; [vm_compute; reflexivity|].
  repeat split; intros (n & e & Hin); vm_compute in Hin;
    repeat (destruct Hin as [Hin|Hin]; [discriminate Hin|]); exact Hin.
Qed.

Lemma stale_or_miss_promotion_witness :
  promotesThenBase "/a" (OChtimes "/a" 1 2) [CallFs Layer (OStat "/a") (Some ENOENT)]
    (Chtimes "/a" 1 2 worldMiss)
  /\ baseWithoutPromotion (ORemove "/a") [CallFs Layer (OStat "/a") (Some ENOENT)]
       (Remove "/a" worldMiss).
Proof.
  assert (E : cacheStatus "/a" worldMiss
              = (Val (cacheMiss, None, None), worldMiss,
                 [CallFs Layer (OStat "/a") (Some ENOENT)]))
    by (vm_compute; reflexivity).
  destruct (stale_or_miss_promotion "/a" worldMiss _ _ _ _ E (or_intror eq_refl))
    as (Hchtimes & _ & _ & Hremove & _).
  split; [apply Hchtimes | exact Hremove].
Defined.

(** C4 as stated fails: behind a read-only base, [Chtimes] on the Miss path
    [/a] ends with the base's error, and the layer, empty before, holds the
    promoted copy of [/a].  And an error on the base's side does not always
    end the call: when the base's [Stat] fails inside the oracle the path
    classifies as Local, and [Chtimes] goes on to change the layer. *)
Lemma Chtimes_base_error_layer_written :
  resultOf (Chtimes "/a" 1 2 worldReadOnlyBase) = Val (Some EPERM)
  /\ callsOf (Chtimes "/a" 1 2 worldReadOnlyBase)
     = [CallFs Layer (OStat "/a") (Some ENOENT); CallCopyToLayer "/a" None;
        CallFs Base (OChtimes "/a" 1 2) (Some EPERM)]
  /\ files (layer worldReadOnlyBase) !! "/a" = None
  /\ files (layer (worldOf (Chtimes "/a" 1 2 worldReadOnlyBase))) !! "/a"
     = Some (aFile "/a" T0)
  /\ layer (worldOf (Chtimes "/a" 1 2 worldReadOnlyBase)) <> layer worldReadOnlyBase
  /\ resultOf (Chtimes "/a" 1 2 worldLocal) = Val None
  /\ callsOf (Chtimes "/a" 1 2 worldLocal)
     = [CallFs Layer (OStat "/a") None; CallFs Base (OStat "/a") (Some ENOENT);
        CallFs Layer (OChtimes "/a" 1 2) None].
Proof.
  split; [vm_compute; reflexivity|]. split; [vm_compute; reflexivity|].
  split; [vm_compute; reflexivity|]. split; [vm_compute; reflexivity|].
  split; [|split; vm_compute; reflexivity].
  intros H. apply (f_equal (fun s => files s !! "/a")) in H.
  vm_compute in H. discriminate H.
Qed.

Lemma base_error_aborts_before_layer_witness :
  resultOf (Chtimes "/a" 1 2 worldReadOnlyBase) = Val (Some EPERM)
  /\ (exists lerr,
        [CallFs Layer (ORemove "/a") (Some ENOENT)] = [CallFs Layer (ORemove "/a") lerr]
        /\ resultOf (Remove "/a" worldMiss) = Val lerr)
  /\ callsOf (Chtimes "/a" 1 2 worldReadOnlyBase)
     = [CallFs Layer (OStat "/a") (Some ENOENT); CallCopyToLayer "/a" None;
        CallFs Base (OChtimes "/a" 1 2) (Some EPERM)]
  /\ callsOf (Remove "/a" worldReadOnlyBase)
     = [CallFs Layer (OStat "/a") (Some ENOENT); CallFs Base (ORemove "/a") (Some EPERM)]
  /\ layer (worldOf (Remove "/a" worldReadOnlyBase)) = layer worldReadOnlyBase.
Proof.
  destruct (base_error_aborts_before_layer worldReadOnlyBase)
    as (Hchtimes & _ & _ & _ & _ & _ & _ & _ & Hexact).
  destruct (base_error_aborts_before_layer worldMiss) as (_ & _ & _ & Hremove & _).
  assert (E : cacheStatus "/a" worldReadOnlyBase
              = (Val (cacheMiss, None, None), worldReadOnlyBase,
                 [CallFs Layer (OStat "/a") (Some ENOENT)]))
    by (vm_compute; reflexivity).
  destruct (Hexact "/a" _ _ _ _ E) as (Hrm & _ & Hpromoted).
  split; [|split; [|split; [|split]]].
  - assert (Hc : callsOf (Chtimes "/a" 1 2 worldReadOnlyBase)
                 = [CallFs Layer (OStat "/a") (Some ENOENT); CallCopyToLayer "/a" None]
                     ++ CallFs Base (OChtimes "/a" 1 2) (Some EPERM) :: [])
      by (vm_compute; reflexivity).
    destruct (Hchtimes "/a" 1 2 _ _ _ Hc) as (_ & _ & Hres). exact Hres.
  - assert (Hc : callsOf (Remove "/a" worldMiss)
                 = [CallFs Layer (OStat "/a") (Some ENOENT)]
                     ++ CallFs Base (ORemove "/a") None
                     :: [CallFs Layer (ORemove "/a") (Some ENOENT)])
      by (vm_compute; reflexivity).
    destruct (Hremove "/a" _ _ _ Hc) as (_ & Hres). exact Hres.
  - assert (Hc : copyToLayerFn "/a" (base worldReadOnlyBase) (layer worldReadOnlyBase)
                 = (None, base worldReadOnlyBase,
                    setFiles (layer worldReadOnlyBase)
                      (<["/a" := aFile "/a" T0]> (files (layer worldReadOnlyBase)))))
      by (vm_compute; reflexivity).
    destruct (Hpromoted (or_intror eq_refl) _ _ Hc) as (Hch & _).
    specialize (Hch 1 2). unfold writesThrough in Hch. eval_scrutinee Hch.
    rewrite Hch. reflexivity.
  - destruct (Hrm ltac:(discriminate)) as (Hr & _).
    unfold writesThrough in Hr. eval_scrutinee Hr. rewrite Hr. reflexivity.
  - destruct (Hrm ltac:(discriminate)) as (Hr & _).
    unfold writesThrough in Hr. eval_scrutinee Hr. rewrite Hr. reflexivity.
Defined.

(** C5 as stated fails: behind a read-only base, [OpenFile] with the
    write-only flag on the Miss path [/a] ends with the base's error, and the
    layer, empty before, holds the promoted copy of [/a]. *)
Lemma OpenFile_base_error_layer_written :
  hasWriteFlag O_WRONLY
  /\ resultOf (OpenFile "/a" O_WRONLY 420 worldReadOnlyBase) = Val (None, Some EPERM)
  /\ callsOf (OpenFile "/a" O_WRONLY 420 worldReadOnlyBase)
     = [CallFs Layer (OStat "/a") (Some ENOENT); CallCopyToLayer "/a" None;
        CallFs Base (OOpenFile "/a" O_WRONLY 420) (Some EPERM)]
  /\ files (layer worldReadOnlyBase) !! "/a" = None
  /\ files (layer (worldOf (OpenFile "/a" O_WRONLY 420 worldReadOnlyBase))) !! "/a"
     = Some (aFile "/a" T0)
  /\ layer (worldOf (OpenFile "/a" O_WRONLY 420 worldReadOnlyBase))
     <> layer worldReadOnlyBase.
Proof.
  split; [apply Exists_cons_hd; discriminate|].
  split; [vm_compute; reflexivity|]. split; [vm_compute; reflexivity|].
  split; [vm_compute; reflexivity|]. split; [vm_compute; reflexivity|].
  intros H. apply (f_equal (fun s => files s !! "/a")) in H.
  vm_compute in H. discriminate H.
Qed.

Lemma Create_OpenFile_fan_out_witness :
  resultOf (OpenFile "/a" O_WRONLY 420 worldMiss)
    = Val (Some (UnionFile (Some 3%nat) (Some 3%nat)), None)
  /\ callsOf (OpenFile "/a" O_WRONLY 420 worldMiss)
     = [CallFs Layer (OStat "/a") (Some ENOENT); CallCopyToLayer "/a" None;
        CallFs Base (OOpenFile "/a" O_WRONLY 420) None;
        CallFs Layer (OOpenFile "/a" O_WRONLY 420) None].
Proof.
  assert (Hflag : hasWriteFlag O_WRONLY) by (apply Exists_cons_hd; discriminate).
  assert (E : cacheStatus "/a" worldMiss
              = (Val (cacheMiss, None, None), worldMiss,
                 [CallFs Layer (OStat "/a") (Some ENOENT)]))
    by (vm_compute; reflexivity).
  destruct (Create_OpenFile_fan_out "/a" worldMiss) as (_ & Hopen).
  destruct (Hopen O_WRONLY 420 _ _ _ _ Hflag E) as (_ & Hpromote).
  assert (Hc : copyToLayerFn "/a" (base worldMiss) (layer worldMiss)
               = (None, base worldMiss,
                  setFiles (layer worldMiss)
                    (<["/a" := aFile "/a" T0]> (files (layer worldMiss)))))
    by (vm_compute; reflexivity).
  specialize (Hpromote (or_intror eq_refl) _ _ _ Hc).
  unfold fansOut in Hpromote. do 2 eval_scrutinee Hpromote.
  rewrite Hpromote. split; reflexivity.
Defined.

(** C6 as stated fails: on the Miss path [/d], a directory of the base,
    [Open] returns the base's own handle; the layer is never opened and no
    [UnionFile] is made. *)
Lemma Open_miss_directory_base_handle :
  resultOf (cacheStatus "/d" worldMiss) = Val (cacheMiss, None, None)
  /\ files (base worldMiss) !! "/d" = Some (aDir "/d" T0)
  /\ resultOf (Open "/d" worldMiss) = Val (Some (StoreFile Base 3%nat), None)
  /\ callsOf (Open "/d" worldMiss)
     = [CallFs Layer (OStat "/d") (Some ENOENT); CallFs Base (OStat "/d") None;
        CallFs Base (OOpen "/d") None]
  /\ (forall e, ~ In (CallFs Layer (OOpen "/d") e) (callsOf (Open "/d" worldMiss))).
Proof.
  split; [vm_compute; reflexivity|]. split; [vm_compute; reflexivity|].
  split; [vm_compute; reflexivity|]. split; [vm_compute; reflexivity|].
  intros e Hin. vm_compute in Hin.
  repeat (destruct Hin as [Hin|Hin]; [discriminate Hin|]). exact Hin.
Qed.

Lemma Open_directory_witness :
  resultOf (Open "/d" worldDir) = Val (Some (UnionFile (Some 3%nat) (Some 3%nat)), None)
  /\ resultOf (Open "/d" worldMiss) = Val (Some (StoreFile Base 3%nat), None).
Proof.
  split.
  - assert (E : cacheStatus "/d" worldDir
                = (Val (cacheStale, Some (aDir "/d" (T0 + 2 * Hour)), None), worldDir,
                   [CallFs Layer (OStat "/d") None; CallFs Base (OStat "/d") None]))
      by (vm_compute; reflexivity).
    destruct (Open_directory "/d" worldDir _ _ _ _ E) as (Hdir & _).
    assert (Hb : fsOpen "/d" (base worldDir) = newHandle (base worldDir))
      by (vm_compute; reflexivity).
    assert (Hl : fsOpen "/d" (layer worldDir) = newHandle (layer worldDir))
      by (vm_compute; reflexivity).
    destruct (Hdir (or_intror eq_refl) _ eq_refl eq_refl _ _ _ _ Hb Hl)
      as (_ & _ & Hres & _).
    exact (Hres _ eq_refl).
  - assert (E : cacheStatus "/d" worldMiss
                = (Val (cacheMiss, None, None), worldMiss,
                   [CallFs Layer (OStat "/d") (Some ENOENT)]))
      by (vm_compute; reflexivity).
    destruct (Open_directory "/d" worldMiss _ _ _ _ E) as (_ & Hmiss).
    assert (Hs : fsStat "/d" (base worldMiss) = (Ok (aDir "/d" T0), base worldMiss))
      by (vm_compute; reflexivity).
    assert (Ho : fsOpen "/d" (base worldMiss) = newHandle (base worldMiss))
      by (vm_compute; reflexivity).
    rewrite (Hmiss eq_refl _ _ _ _ Hs eq_refl Ho). reflexivity.
Defined.

(** C7 on the code: a layer that answers a missing path as [os.Stat] does,
    with a [PathError] around [ENOENT], makes the oracle return that
    [PathError] as a non-nil error instead of Miss with a nil error; and a
    layer that fails with [EACCES] makes the oracle return a nil [PathError]
    pointer, not [EACCES]. *)
Theorem cacheStatus_not_found_class_on_code :
  fsStat "/a" (layer worldOsLayer) = (Err statNotFound, layer worldOsLayer)
  /\ PathError_Err (mkPathError 9 "stat" "/a" (Some ENOENT)) = Some ENOENT
  /\ resultOf (cacheStatus "/a" worldOsLayer) = Val (cacheMiss, None, Some statNotFound)
  /\ resultOf (Stat "/a" worldOsLayer) = Val (None, Some statNotFound)
  /\ fsStat "/a" (layer worldDeniedLayer) = (Err EACCES, layer worldDeniedLayer)
  /\ resultOf (cacheStatus "/a" worldDeniedLayer)
     = Val (cacheMiss, None, Some (PathErrorPtr None))
  /\ resultOf (cacheStatus "/a" worldMiss) = Val (cacheMiss, None, None).
Proof. repeat split; vm_compute; reflexivity. Qed.

Lemma monitor_handles_every_event_witness :
  monitorStep (MsgEvent "/a" fsnotify_Write) worldStale
    = (Val true,
       setLayer worldStale
         (setFiles (layer worldStale)
            (<["/a" := aFile "/a" (T0 + 2 * Hour)]> (files (layer worldStale)))),
       [CallFs Layer (OStat "/a") None; CallFs Base (OStat "/a") None;
        CallCopyToLayer "/a" None])
  /\ callsOf (monitor None [MsgError EACCES; MsgEvent "/a" fsnotify_Write] worldStale)
     = [CallLog "[MonCacheOnReadFs] Watcher error:" (Some EACCES);
        CallFs Layer (OStat "/a") None; CallFs Base (OStat "/a") None;
        CallCopyToLayer "/a" None]
  /\ files (layer (worldOf (monitor None [MsgError EACCES; MsgEvent "/a" fsnotify_Write]
                             worldStale))) !! "/a"
     = Some (aFile "/a" (T0 + 2 * Hour)).
Proof.
  destruct (@monitor_handles_every_event MemFs MemFs _ _ _)
    as (Hevent & _ & _ & _ & Hnil & Hcons).
  assert (E : cacheStatus "/a" worldStale
              = (Val (cacheStale, Some (aFile "/a" (T0 + 2 * Hour)), None), worldStale,
                 [CallFs Layer (OStat "/a") None; CallFs Base (OStat "/a") None]))
    by (vm_compute; reflexivity).
  destruct (Hevent "/a" fsnotify_Write _ _ _ _ _ _ eq_refl E) as (_ & _ & Hpromote).
  assert (Hc : copyToLayerFn "/a" (base worldStale) (layer worldStale)
               = (None, base worldStale,
                  setFiles (layer worldStale)
                    (<["/a" := aFile "/a" (T0 + 2 * Hour)]> (files (layer worldStale)))))
    by (vm_compute; reflexivity).
  pose proof (Hpromote eq_refl (or_intror (or_introl eq_refl)) _ eq_refl eq_refl _ _ _ Hc)
    as Hstep.
  split; [exact Hstep|].
  rewrite (Hcons (MsgError EACCES) [MsgEvent "/a" fsnotify_Write] worldStale).
  change (monitorStep (MsgError EACCES) worldStale)
    with (Val true, worldStale,
          [CallLog "[MonCacheOnReadFs] Watcher error:" (Some EACCES)]).
  cbv beta iota.
  rewrite (Hcons (MsgEvent "/a" fsnotify_Write) [] worldStale).
  rewrite Hstep. cbv beta iota. rewrite Hnil.
  split; vm_compute; reflexivity.
Defined.

Lemma cacheStatus_metadata_invariant_witness :
  exists i,
    Some (aFile "/a" (T0 + 2 * Hour)) = Some i
    /\ Stat "/a" worldStale
       = (Val (Some i, None), worldStale,
          [CallFs Layer (OStat "/a") None; CallFs Base (OStat "/a") None]).
Proof.
  destruct (@cacheStatus_metadata_invariant MemFs MemFs _ _ _) as (_ & _ & _ & Hstat).
  assert (E : cacheStatus "/a" worldStale
              = (Val (cacheStale, Some (aFile "/a" (T0 + 2 * Hour)), None), worldStale,
                 [CallFs Layer (OStat "/a") None; CallFs Base (OStat "/a") None]))
    by (vm_compute; reflexivity).
  apply (Hstat "/a" worldStale _ _ _ _ E). discriminate.
Defined.

Lemma Remove_miss_returns_layer_answer_witness :
  resultOf (Remove "/a" worldMiss) = Val (Some ENOENT)
  /\ files (base worldMiss) !! "/a" = Some (aFile "/a" T0)
  /\ files (base (worldOf (Remove "/a" worldMiss))) !! "/a" = None
  /\ callsOf (Remove "/a" worldMiss)
     = [CallFs Layer (OStat "/a") (Some ENOENT); CallFs Base (ORemove "/a") None;
        CallFs Layer (ORemove "/a") (Some ENOENT)].
Proof.
  assert (E : cacheStatus "/a" worldMiss
              = (Val (cacheMiss, None, None), worldMiss,
                 [CallFs Layer (OStat "/a") (Some ENOENT)]))
    by (vm_compute; reflexivity).
  destruct (Remove_miss_returns_layer_answer "/a" worldMiss _ _ _ E) as (Hremove & _).
  assert (Hb : fsRemove "/a" (base worldMiss)
               = (None, setFiles (base worldMiss) (delete "/a" (files (base worldMiss)))))
    by (vm_compute; reflexivity).
  assert (Hl : fsRemove "/a" (layer worldMiss) = (Some ENOENT, layer worldMiss))
    by (vm_compute; reflexivity).
  rewrite (Hremove _ _ _ Hb Hl).
  repeat split; vm_compute; reflexivity.
Defined.

(** * Further properties of the oracle and of [Stat] *)

Section OracleMore.
Context {B L : Type} `{FsB : Fs B} `{FsL : Fs L} `{P : Promote B L}.

(** The runs of the oracle: a failed [Stat] of the layer is its only call and
    gives Miss; otherwise the state is not Miss, the error is nil, and the
    calls are the layer's [Stat] alone or followed by the base's. *)
Lemma cacheStatus_shape (name : string) (w : World B L) :
  exists st fi err w1 cs,
    cacheStatus name w = (Val (st, fi, err), w1, cs)
    /\ ((exists e, st = cacheMiss /\ fi = None
                   /\ cs = [CallFs Layer (OStat name) (Some e)]
                   /\ base w1 = base w)
        \/ (exists i, st <> cacheMiss /\ fi = Some i /\ err = None
                      /\ (cs = [CallFs Layer (OStat name) None]
                          \/ exists be, cs = [CallFs Layer (OStat name) None;
                                              CallFs Base (OStat name) be]))).
Proof.
  unfold cacheStatus, bind, onLayer, onBase, getCacheTime, timeNow, ret.
  destruct (fsStat name (layer w)) as [[lfi|e] l1] eqn:El; simpl.
  - destruct (cacheTime w =? 0) eqn:Ect; simpl.
    + do 5 eexists. split; [reflexivity|]. right. exists lfi.
      repeat split; try discriminate. left. reflexivity.
    + destruct (Before (Add (ModTime lfi) (cacheTime w)) (clock w)) eqn:Eb; simpl.
      * destruct (fsStat name (base w)) as [[bfi|e] b1] eqn:Ebs; simpl.
        -- destruct (After (ModTime bfi) (ModTime lfi)); simpl;
             do 5 eexists; (split; [reflexivity|]); right; eexists;
             (repeat split; try discriminate); right; eexists; reflexivity.
        -- do 5 eexists; (split; [reflexivity|]); right; eexists;
             (repeat split; try discriminate); right; eexists; reflexivity.
      * do 5 eexists. split; [reflexivity|]. right. exists lfi.
        repeat split; try discriminate. left. reflexivity.
  - destruct e as [n|a m|[p|]]; simpl; try destruct (n =? 2); simpl;
      do 5 eexists; (split; [reflexivity|]); left; eexists; repeat split.
Qed.

(** X1.  [Stat] calls nothing but [Stat] of the path it was given, at most once
    on each store and the layer first; it never promotes and never applies
    another verb to a store. *)
Theorem Stat_only_stats (name : string) (w : World B L) :
  Forall (isStatOf name) (callsOf (Stat name w))
  /\ (exists le,
        callsOf (Stat name w) = [CallFs Layer (OStat name) le]
        \/ exists be, callsOf (Stat name w)
                      = [CallFs Layer (OStat name) le; CallFs Base (OStat name) be]).
Proof.
  destruct (cacheStatus_shape name w) as (st & fi & err & w1 & cs & E & Hshape).
  unfold Stat. rewrite (bind_run _ _ _ _ _ _ E).
  destruct Hshape as [(e & -> & -> & -> & Hb) | (i & Hst & -> & -> & Hcs)].
  - destruct err as [e'|]; simpl.
    + unfold ret, callsOf. simpl. split; [repeat constructor|].
      eexists. left. reflexivity.
    + exec; unfold callsOf; simpl; (split; [repeat constructor|]);
        eexists; right; eexists; reflexivity.
  - destruct st; try contradiction; simpl; unfold ret, callsOf; simpl;
      rewrite app_nil_r;
      (destruct Hcs as [-> | (be & ->)];
       [ split; [repeat constructor|]; eexists; left; reflexivity
       | split; [repeat constructor|]; eexists; right; eexists; reflexivity ]).
Qed.

(** X2.  When the layer has the path, [Stat] succeeds whatever the base
    answers, and the metadata it returns is the layer's or, only when the
    window is not zero and has elapsed, that of a base entry strictly newer
    than the layer's; so it is never older than the layer's. *)
Theorem Stat_layer_entry_succeeds (name : string) (w : World B L)
    (lfi : FileInfo) (l1 : L) :
  fsStat name (layer w) = (Ok lfi, l1) ->
  exists fi,
    resultOf (Stat name w) = Val (Some fi, None)
    /\ ModTime lfi <= ModTime fi
    /\ (fi = lfi
        \/ (exists b1, fsStat name (base w) = (Ok fi, b1))
           /\ cacheTime w <> 0
           /\ ModTime lfi + cacheTime w < clock w
           /\ ModTime lfi < ModTime fi).
Proof.
  intros Hl.
  unfold Stat, cacheStatus, bind, onLayer, onBase, getCacheTime, timeNow, ret.
  rewrite Hl. simpl.
  destruct (Z.eqb_spec (cacheTime w) 0) as [Hz|Hz]; simpl.
  { exists lfi. split; [reflexivity|]. split; [lia|]. left. reflexivity. }
  unfold Before, Add.
  destruct (Z.ltb_spec (ModTime lfi + cacheTime w) (clock w)) as [Hlt|Hge]; simpl.
  2: { exists lfi. split; [reflexivity|]. split; [lia|]. left. reflexivity. }
  destruct (fsStat name (base w)) as [[bfi|e] b1] eqn:Hb; simpl.
  2: { exists lfi. split; [reflexivity|]. split; [lia|]. left. reflexivity. }
  unfold After. destruct (Z.gtb_spec (ModTime bfi) (ModTime lfi)) as [Hgt|Hle]; simpl.
  - exists bfi. split; [reflexivity|]. split; [lia|]. right.
    split; [exists b1; reflexivity|]. repeat split; try assumption; lia.
  - exists lfi. split; [reflexivity|]. split; [lia|]. left. reflexivity.
Qed.

(** X3.  On a path for which the layer's [Stat] fails with [ENOENT], [Stat]
    returns what the base's [Stat] answers, value or error, and calls
    nothing else: the path is not brought into the layer. *)
Theorem Stat_miss_is_base_stat (name : string) (w : World B L)
    (l1 : L) (r : Result FileInfo) (b1 : B) :
  fsStat name (layer w) = (Err ENOENT, l1) ->
  fsStat name (base w) = (r, b1) ->
  Stat name w
    = (Val (valOf r, errOf r), setBase (setLayer w l1) b1,
       [CallFs Layer (OStat name) (Some ENOENT); CallFs Base (OStat name) (errOf r)]).
Proof.
  intros Hl Hb.
  unfold Stat, cacheStatus, bind, onLayer, onBase, ret. rewrite Hl. simpl.
  rewrite Hb. reflexivity.
Qed.

(** X4.  When the layer's [Stat] fails, the oracle asks nothing of the base,
    whatever the window: it returns Miss with nil metadata after that one
    call, the base as it was; for the bare [ENOENT] the error is nil. *)
Theorem cacheStatus_layer_failure_skips_base (name : string) (w : World B L)
    (e : errval) (l1 : L) :
  fsStat name (layer w) = (Err e, l1) ->
  exists err,
    cacheStatus name w
      = (Val (cacheMiss, None, err), setLayer w l1, [CallFs Layer (OStat name) (Some e)])
    /\ base (worldOf (cacheStatus name w)) = base w
    /\ (e = ENOENT -> err = None).
Proof.
  intros Hl.
  unfold cacheStatus, bind, onLayer, ret. rewrite Hl. simpl.
  destruct e as [n|a m|[p|]]; simpl; try destruct (Z.eqb_spec n 2); simpl;
    eexists; (split; [reflexivity|]); (split; [reflexivity|]);
    intros He; try reflexivity; try discriminate He.
  exfalso. injection He as He. contradiction.
Qed.

(** X5.  The oracle and the clock.  With the stores as they are, a path that
    is Stale or Local stays so at any later time; an entry that is fresh now
    (the oracle asks the layer alone) was fresh at any earlier time; and with
    a window of zero the answer does not depend on the clock at all. *)
Theorem cacheStatus_clock (name : string) (w : World B L) (t : Time) :
  (clock w <= t ->
   forall st fi, resultOf (cacheStatus name w) = Val (st, fi, None) ->
                 st = cacheStale \/ st = cacheLocal ->
                 resultOf (cacheStatus name (setClock w t)) = Val (st, fi, None))
  /\ (t <= clock w ->
      callsOf (cacheStatus name w) = [CallFs Layer (OStat name) None] ->
      resultOf (cacheStatus name (setClock w t)) = resultOf (cacheStatus name w)
      /\ callsOf (cacheStatus name (setClock w t)) = [CallFs Layer (OStat name) None])
  /\ (cacheTime w = 0 ->
      resultOf (cacheStatus name (setClock w t)) = resultOf (cacheStatus name w)
      /\ callsOf (cacheStatus name (setClock w t)) = callsOf (cacheStatus name w)).
Proof.
  unfold cacheStatus, bind, onLayer, onBase, getCacheTime, timeNow, ret,
    resultOf, callsOf.
  simpl.
  destruct (fsStat name (layer w)) as [[lfi|e] l1] eqn:Hl; simpl.
  2: { destruct e as [n|a m|[p|]]; simpl; try destruct (n =? 2); simpl;
       (split; [intros _ st fi H [-> | ->]; discriminate H|]);
       (split; [intros _ H; discriminate H|]); intros _; split; reflexivity. }
  destruct (Z.eqb_spec (cacheTime w) 0) as [Hz|Hz]; simpl.
  { split; [intros _ st fi H [-> | ->]; discriminate H|].
    split; intros; split; reflexivity. }
  unfold Before, Add.
  destruct (Z.ltb_spec (ModTime lfi + cacheTime w) (clock w)) as [Hlt|Hge];
    destruct (Z.ltb_spec (ModTime lfi + cacheTime w) t) as [Hlt'|Hge']; simpl.
  - destruct (fsStat name (base w)) as [[bfi|e] b1]; simpl;
      try destruct (After (ModTime bfi) (ModTime lfi)); simpl;
      (split; [intros _ st fi H _; exact H|]);
      (split; [intros _ H; discriminate H|intros; contradiction]).
  - split; [intros; lia|]. split; [|intros; contradiction].
    intros _ H. exfalso.
    destruct (fsStat name (base w)) as [[bfi|e] b1]; simpl in H;
      try destruct (After (ModTime bfi) (ModTime lfi)); discriminate H.
  - split; [intros _ st fi H [-> | ->]; discriminate H|].
    split; [intros; lia|intros; contradiction].
  - split; [intros _ st fi H [-> | ->]; discriminate H|].
    split; [intros; split; reflexivity|intros; contradiction].
Qed.

End OracleMore.

(** * Further properties of the dispatcher *)

(** Run [Open], whose branches look at [IsDir]. *)
Ltac exec_dirs :=
  exec;
  repeat (match goal with
          | |- context [IsDir ?i] =>
              let D := fresh "D" in destruct (IsDir i) eqn:D; simpl
          end; exec).

Ltac no_such_call Hin :=
  simpl in Hin;
  repeat (destruct Hin as [Hin|Hin]; [try discriminate Hin|]);
  try contradiction.

Section DispatcherMore.
Context {B L : Type} `{FsB : Fs B} `{FsL : Fs L} `{P : Promote B L}.

(** X6.  When the oracle returns an error, each method that classifies
    ([Chtimes], [Chmod], [Rename], [Remove], [RemoveAll], [Stat],
    [OpenFile], [Open]) returns that error, with a nil value where it
    returns one, and calls nothing after the oracle: no promotion and no
    verb on either store. *)
Theorem classification_error_aborts (name : string) (w w1 : World B L)
    (st : cacheState) (fi : option FileInfo) (e : errval) (cs : list Call) :
  cacheStatus name w = (Val (st, fi, Some e), w1, cs) ->
  (forall atime mtime, Chtimes name atime mtime w = (Val (Some e), w1, cs))
  /\ (forall mode, Chmod name mode w = (Val (Some e), w1, cs))
  /\ (forall newname, Rename name newname w = (Val (Some e), w1, cs))
  /\ Remove name w = (Val (Some e), w1, cs)
  /\ RemoveAll name w = (Val (Some e), w1, cs)
  /\ Stat name w = (Val (None, Some e), w1, cs)
  /\ (forall flag perm, OpenFile name flag perm w = (Val (None, Some e), w1, cs))
  /\ Open name w = (Val (None, Some e), w1, cs).
Proof.
  intros E. repeat split; intros.
  1: unfold Chtimes. 2: unfold Chmod. 3: unfold Rename. 4: unfold Remove.
  5: unfold RemoveAll. 6: unfold Stat. 7: unfold OpenFile. 8: unfold Open.
  all: rewrite (bind_run _ _ _ _ _ _ E); simpl; unfold ret; rewrite app_nil_r;
    reflexivity.
Qed.

(** X7.  On a Local path the five verbs skip the base: the verb is applied to
    the layer alone, what the layer answers is the result, and the base
    stays as the oracle left it. *)
Theorem local_skips_base (name : string) (w w1 : World B L)
    (fi : option FileInfo) (cs : list Call) :
  cacheStatus name w = (Val (cacheLocal, fi, None), w1, cs) ->
  (forall atime mtime lerr l1,
      fsChtimes name atime mtime (layer w1) = (lerr, l1) ->
      Chtimes name atime mtime w
        = (Val lerr, setLayer w1 l1, cs ++ [CallFs Layer (OChtimes name atime mtime) lerr]))
  /\ (forall mode lerr l1,
        fsChmod name mode (layer w1) = (lerr, l1) ->
        Chmod name mode w
          = (Val lerr, setLayer w1 l1, cs ++ [CallFs Layer (OChmod name mode) lerr]))
  /\ (forall newname lerr l1,
        fsRename name newname (layer w1) = (lerr, l1) ->
        Rename name newname w
          = (Val lerr, setLayer w1 l1, cs ++ [CallFs Layer (ORename name newname) lerr]))
  /\ (forall lerr l1,
        fsRemove name (layer w1) = (lerr, l1) ->
        Remove name w
          = (Val lerr, setLayer w1 l1, cs ++ [CallFs Layer (ORemove name) lerr]))
  /\ (forall lerr l1,
        fsRemoveAll name (layer w1) = (lerr, l1) ->
        RemoveAll name w
          = (Val lerr, setLayer w1 l1, cs ++ [CallFs Layer (ORemoveAll name) lerr])).
Proof.
  intros E. repeat split; intros.
  1: unfold Chtimes. 2: unfold Chmod. 3: unfold Rename. 4: unfold Remove.
  5: unfold RemoveAll.
  all: rewrite (bind_run _ _ _ _ _ _ E); exec; reflexivity.
Qed.

(** X8.  On a Hit path the five verbs go to the base at once, without any
    promotion. *)
Theorem hit_applies_base_without_promotion (name : string) (w w1 : World B L)
    (fi : option FileInfo) (cs : list Call) :
  cacheStatus name w = (Val (cacheHit, fi, None), w1, cs) ->
  (forall atime mtime,
      baseWithoutPromotion (OChtimes name atime mtime) cs (Chtimes name atime mtime w))
  /\ (forall mode, baseWithoutPromotion (OChmod name mode) cs (Chmod name mode w))
  /\ (forall newname,
        baseWithoutPromotion (ORename name newname) cs (Rename name newname w))
  /\ baseWithoutPromotion (ORemove name) cs (Remove name w)
  /\ baseWithoutPromotion (ORemoveAll name) cs (RemoveAll name w).
Proof.
  intros E. pose proof (cacheStatus_calls_stat _ _ _ _ _ E) as Hcs.
  unfold baseWithoutPromotion.
  repeat split; intros.
  1,2: unfold Chtimes. 3,4: unfold Chmod. 5,6: unfold Rename.
  7,8: unfold Remove. 9,10: unfold RemoveAll.
  all: rewrite (bind_run _ _ _ _ _ _ E); exec; unfold callsOf; simpl.
  all: try (do 2 eexists; reflexivity).
  all: apply no_promotion_after_stats; [assumption|].
  all: intros (n & e' & Hin); simpl in Hin;
    repeat (destruct Hin as [Hin|Hin]; [discriminate Hin|]); exact Hin.
Qed.

Lemma stat_is_no_base_verb (cs : list Call) (o : Op) (e : error) :
  Forall isStat cs -> ~ isStat (CallFs Base o e) -> ~ In (CallFs Base o e) cs.
Proof.
  intros Hcs Hn Hin. rewrite List.Forall_forall in Hcs. exact (Hn (Hcs _ Hin)).
Qed.

(** The call just before the last, in a list that begins with [cs]. *)
Ltac last_is_base :=
  match goal with
  | |- exists p, ?c ++ [?b] = p ++ [_] => exists c; reflexivity
  | |- exists p, ?c ++ [?a; ?b] = p ++ [_] =>
      exists (c ++ [a]); rewrite <- app_assoc; reflexivity
  | |- exists p, [?b] = p ++ [_] => exists []; reflexivity
  end.

(** The shape shared by the verbs that classify first. *)
Ltac verb_layerOnlyAfterBase name w :=
  let st := fresh "st" in let fi := fresh "fi" in let err := fresh "err" in
  let w1 := fresh "w" in let cs := fresh "cs" in let E := fresh "E" in
  let Hcs := fresh "Hcs" in let Hc := fresh "Hc" in let pfx := fresh "pfx" in
  destruct (cacheStatus_returns name w) as (st & fi & err & w1 & cs & E & Hcs & _);
  unfold layerOnlyAfterBase, classifiesAs; rewrite E;
  rewrite (bind_run _ _ _ _ _ _ E);
  intros pre lerr post;
  destruct err as [?|]; simpl;
  [ unfold ret, callsOf; simpl; rewrite app_nil_r; intros Hc; exfalso;
    rewrite List.Forall_forall in Hcs;
    match type of Hc with _ = _ ++ ?x :: _ => apply (Hcs x) end;
    rewrite Hc; apply in_elt
  | destruct st; exec; unfold callsOf, resultOf; simpl; intros Hc;
    (apply (split_after_prefix isStat) in Hc; [|assumption|simpl; tauto]);
    destruct Hc as (pfx & -> & Hc); take_apart Hc;
    (split; [reflexivity|]); (split; [reflexivity|]);
    first [ left; simpl; rewrite ?app_nil_r; last_is_base
          | right; split; [eexists; reflexivity|];
            intros ? Hin; rewrite app_nil_r in Hin;
            apply (stat_is_no_base_verb _ _ _ Hcs) in Hin;
            [exact Hin|simpl; tauto] ] ].

(** X9.  The layer is changed by a verb only once the base has accepted it.
    Wherever [Chtimes], [Chmod], [Rename], [Remove], [RemoveAll], [Mkdir] or
    [MkdirAll] calls the verb on the layer, that call is the last of the
    run and what the layer answers is the result; the call just before it is
    the verb on the base, which succeeded.  The one exception is a Local
    path, for which the first five skip the base: no call of the verb on the
    base comes before the layer's. *)
Theorem layer_verb_only_after_base (w : World B L) :
  (forall name atime mtime,
      layerOnlyAfterBase (OChtimes name atime mtime) (OChtimes name atime mtime)
        (classifiesAs name w cacheLocal) (Chtimes name atime mtime w))
  /\ (forall name mode,
        layerOnlyAfterBase (OChmod name mode) (OChmod name mode)
          (classifiesAs name w cacheLocal) (Chmod name mode w))
  /\ (forall oldname newname,
        layerOnlyAfterBase (ORename oldname newname) (ORename oldname newname)
          (classifiesAs oldname w cacheLocal) (Rename oldname newname w))
  /\ (forall name,
        layerOnlyAfterBase (ORemove name) (ORemove name)
          (classifiesAs name w cacheLocal) (Remove name w))
  /\ (forall name,
        layerOnlyAfterBase (ORemoveAll name) (ORemoveAll name)
          (classifiesAs name w cacheLocal) (RemoveAll name w))
  /\ (forall name perm,
        layerOnlyAfterBase (OMkdir name perm) (OMkdirAll name perm) False
          (Mkdir name perm w))
  /\ (forall name perm,
        layerOnlyAfterBase (OMkdirAll name perm) (OMkdirAll name perm) False
          (MkdirAll name perm w)).
Proof.
  split; [intros name atime mtime; unfold Chtimes; verb_layerOnlyAfterBase name w|].
  split; [intros name mode; unfold Chmod; verb_layerOnlyAfterBase name w|].
  split; [intros oldname newname; unfold Rename; verb_layerOnlyAfterBase oldname w|].
  split; [intros name; unfold Remove; verb_layerOnlyAfterBase name w|].
  split; [intros name; unfold RemoveAll; verb_layerOnlyAfterBase name w|].
  split; intros name perm pre lerr post.
  - unfold Mkdir. exec; unfold callsOf, resultOf; simpl; intros Hc;
      take_apart Hc; (split; [reflexivity|]); (split; [reflexivity|]);
      left; last_is_base.
  - unfold MkdirAll. exec; unfold callsOf, resultOf; simpl; intros Hc;
      take_apart Hc; (split; [reflexivity|]); (split; [reflexivity|]);
      left; last_is_base.
Qed.

(** X10.  [Remove], [RemoveAll], [Mkdir], [MkdirAll] and [Create] never promote
    anything, in whatever state the path is. *)
Theorem verbs_that_never_promote (w : World B L) :
  (forall name, ~ promotionIn (callsOf (Remove name w)))
  /\ (forall name, ~ promotionIn (callsOf (RemoveAll name w)))
  /\ (forall name perm, ~ promotionIn (callsOf (Mkdir name perm w)))
  /\ (forall name perm, ~ promotionIn (callsOf (MkdirAll name perm w)))
  /\ (forall name, ~ promotionIn (callsOf (Create name w))).
Proof.
  repeat split; intros.
  1: unfold Remove. 2: unfold RemoveAll.
  1,2: destruct (cacheStatus_returns name w) as (st & fi & err & w1 & cs & E & Hcs & _);
    rewrite (bind_run _ _ _ _ _ _ E);
    destruct err as [e|]; [|destruct st]; exec; unfold callsOf; simpl;
    (apply no_promotion_after_stats; [assumption|]);
    intros (n & e' & Hin); no_such_call Hin.
  1: unfold Mkdir. 2: unfold MkdirAll. 3: unfold Create.
  all: exec; unfold callsOf; simpl; intros (n & e' & Hin); no_such_call Hin.
Qed.

(** X11.  [Chtimes], [Chmod], [Rename], [OpenFile] and [Open] promote nothing but
    the path they were given, and only when the oracle classifies it as
    Stale or Miss; on a Hit or Local path, or after an error of the oracle,
    they promote nothing. *)
Theorem promotion_only_when_stale_or_miss (name : string) (w : World B L) :
  (forall atime mtime,
      promotesOnlyStaleOrMiss name w (callsOf (Chtimes name atime mtime w)))
  /\ (forall mode, promotesOnlyStaleOrMiss name w (callsOf (Chmod name mode w)))
  /\ (forall newname,
        promotesOnlyStaleOrMiss name w (callsOf (Rename name newname w)))
  /\ (forall flag perm,
        promotesOnlyStaleOrMiss name w (callsOf (OpenFile name flag perm w)))
  /\ promotesOnlyStaleOrMiss name w (callsOf (Open name w)).
Proof.
  destruct (cacheStatus_returns name w) as (st & fi & err & w1 & cs & E & Hcs & Hinv).
  assert (Hno : forall n e, ~ In (CallCopyToLayer n e) cs).
  { intros n e Hin. rewrite List.Forall_forall in Hcs. exact (Hcs _ Hin). }
  unfold promotesOnlyStaleOrMiss, classifiesAs. rewrite E.
  split; [|split; [|split; [|split]]]; intros *.
  1: unfold Chtimes. 2: unfold Chmod. 3: unfold Rename.
  4: unfold OpenFile. 5: unfold Open.
  all: rewrite (bind_run _ _ _ _ _ _ E).
  all: destruct err as [e0|];
    [ simpl; unfold ret, callsOf; simpl; rewrite app_nil_r; intros Hin;
      exfalso; exact (Hno _ _ Hin) | ].
  all: destruct st; try (destruct Hinv as (i & ->));
    try destruct (Z.land flag writeMask =? 0); exec_dirs;
    unfold callsOf, resultOf; simpl; intros Hin;
    (apply in_app_or in Hin as [Hin|Hin]; [exfalso; exact (Hno _ _ Hin)|]);
    no_such_call Hin; inversion Hin; subst;
    (split; [reflexivity|]);
    first [ left; eexists; reflexivity | right; eexists; reflexivity ].
Qed.

(** X12.  [Stat], [Open], [OpenFile] and [Create] keep the convention they
    expect of the stores: they always return, with exactly one of value and
    error nil.  A [UnionFile] made by [Create] or [OpenFile] has both its
    handles, one made by [Open] has at least one.  [OpenFile] returns a
    [UnionFile] only when a write-class bit is set in the flags and a handle
    of a single store, always the layer's, only when none is. *)
Theorem results_keep_convention (name : string) (w : World B L) :
  (exists p, resultOf (Stat name w) = Val p /\ oneNil p)
  /\ (exists p,
        resultOf (Open name w) = Val p /\ oneNil p
        /\ forall b l, fst p = Some (UnionFile b l) -> b <> None \/ l <> None)
  /\ (forall flag perm,
        exists p,
          resultOf (OpenFile name flag perm w) = Val p /\ oneNil p
          /\ (forall b l, fst p = Some (UnionFile b l) ->
                b <> None /\ l <> None /\ Z.land flag writeMask <> 0)
          /\ (forall s h, fst p = Some (StoreFile s h) ->
                s = Layer /\ Z.land flag writeMask = 0))
  /\ (exists p,
        resultOf (Create name w) = Val p /\ oneNil p
        /\ forall f, fst p = Some f -> exists bh lh, f = UnionFile (Some bh) (Some lh)).
Proof.
  destruct (cacheStatus_returns name w) as (st & fi & err & w1 & cs & E & Hcs & Hinv).
  split; [|split; [|split]].
  - unfold Stat. rewrite (bind_run _ _ _ _ _ _ E).
    destruct err as [e0|]; [|destruct st; try (destruct Hinv as (i & ->))];
      exec; unfold resultOf; simpl; eexists; split; reflexivity.
  - unfold Open. rewrite (bind_run _ _ _ _ _ _ E).
    destruct err as [e0|]; [|destruct st; try (destruct Hinv as (i & ->))];
      exec_dirs; unfold resultOf; simpl; eexists;
      (split; [reflexivity|]); (split; [reflexivity|]);
      simpl; intros ? ? H; inversion H; subst;
      first [left; discriminate | right; discriminate].
  - intros flag perm. unfold OpenFile. rewrite (bind_run _ _ _ _ _ _ E).
    destruct (Z.eqb_spec (Z.land flag writeMask) 0) as [Hz|Hz];
      (destruct err as [e0|]; [|destruct st]);
      exec; unfold resultOf; simpl; eexists;
      (split; [reflexivity|]); (split; [reflexivity|]);
      simpl; (split; [intros ? ? H|intros ? ? H]); inversion H; subst;
      repeat split; try assumption; try discriminate; try contradiction.
  - unfold Create. exec; unfold resultOf; simpl; eexists;
      (split; [reflexivity|]); (split; [reflexivity|]);
      simpl; intros ? H; inversion H; subst; eauto.
Qed.

Lemma stats_do_not_act_on_base (cs : list Call) :
  Forall isStat cs -> Forall (fun c => ~ actsOnBase c) cs.
Proof.
  intros H. eapply List.Forall_impl; [|exact H].
  intros [[] [] e|n e|m e]; simpl; tauto.
Qed.

(** X13.  [OpenFile] with no write-class bit in its flags (so with [O_RDONLY])
    applies no verb to the base: the base is at most asked by the oracle's
    [Stat] and read by a promotion.  On a Local or Hit path the call is the
    layer's [OpenFile], whose handle or error is returned as it is. *)
Theorem OpenFile_read_only_flags (name : string) (flag : Z) (perm : FileMode)
    (w : World B L) :
  Z.land flag writeMask = 0 ->
  Forall (fun c => ~ actsOnBase c) (callsOf (OpenFile name flag perm w))
  /\ forall st fi w1 cs,
       cacheStatus name w = (Val (st, fi, None), w1, cs) ->
       st = cacheLocal \/ st = cacheHit ->
       forall r l1,
         fsOpenFile name flag perm (layer w1) = (r, l1) ->
         OpenFile name flag perm w
           = (Val (option_map (StoreFile Layer) (valOf r), errOf r), setLayer w1 l1,
              cs ++ [CallFs Layer (OOpenFile name flag perm) (errOf r)]).
Proof.
  intros Hflag.
  assert (Hm : (Z.land flag writeMask =? 0) = true) by (apply Z.eqb_eq; assumption).
  split.
  - destruct (cacheStatus_returns name w) as (st & fi & err & w1 & cs & E & Hcs & _).
    unfold OpenFile. rewrite (bind_run _ _ _ _ _ _ E). rewrite Hm.
    destruct err as [e0|]; [|destruct st]; exec; unfold callsOf; simpl;
      apply Forall_app; (split; [apply stats_do_not_act_on_base; assumption|]);
      repeat constructor; simpl; tauto.
  - intros st fi w1 cs E Hst r l1 Hl.
    unfold OpenFile. rewrite (bind_run _ _ _ _ _ _ E). rewrite Hm.
    destruct Hst as [-> | ->]; unfold onLayer, bind, ret; simpl; rewrite Hl;
      reflexivity.
Qed.

(** X14.  [Open] on a path that is not a directory.  On a Local path, and on a
    Hit path whose metadata is not a directory, the call is the layer's
    [Open] and nothing else.  On a Stale path that is not a directory, and
    on a Miss path that the base's [Stat] answers as not a directory, the
    path is promoted first: a failed promotion ends the call with its error,
    the layer not opened; after a successful one the layer's [Open] answers.
    On a Miss path for which the base's [Stat] fails, that error is returned
    and nothing is promoted or opened. *)
Theorem Open_file_paths (name : string) (w w1 : World B L)
    (st : cacheState) (fi : option FileInfo) (cs : list Call) :
  cacheStatus name w = (Val (st, fi, None), w1, cs) ->
  (st = cacheLocal \/ (st = cacheHit /\ exists i, fi = Some i /\ IsDir i = false) ->
   forall r l1,
     fsOpen name (layer w1) = (r, l1) ->
     Open name w
       = (Val (option_map (StoreFile Layer) (valOf r), errOf r), setLayer w1 l1,
          cs ++ [CallFs Layer (OOpen name) (errOf r)]))
  /\ (st = cacheStale -> forall i, fi = Some i -> IsDir i = false ->
      forall cerr b1 l1,
        copyToLayerFn name (base w1) (layer w1) = (cerr, b1, l1) ->
        match cerr with
        | Some _ =>
            Open name w
              = (Val (None, cerr), setLayer (setBase w1 b1) l1,
                 cs ++ [CallCopyToLayer name cerr])
        | None =>
            forall r l2,
              fsOpen name l1 = (r, l2) ->
              Open name w
                = (Val (option_map (StoreFile Layer) (valOf r), errOf r),
                   setLayer (setBase w1 b1) l2,
                   cs ++ [CallCopyToLayer name None;
                          CallFs Layer (OOpen name) (errOf r)])
        end)
  /\ (st = cacheMiss ->
      forall rb b1,
        fsStat name (base w1) = (rb, b1) ->
        match rb with
        | Err e =>
            Open name w
              = (Val (None, Some e), setBase w1 b1,
                 cs ++ [CallFs Base (OStat name) (Some e)])
        | Ok bfi =>
            IsDir bfi = false ->
            forall cerr b2 l1,
              copyToLayerFn name b1 (layer w1) = (cerr, b2, l1) ->
              match cerr with
              | Some _ =>
                  Open name w
                    = (Val (None, cerr), setLayer (setBase w1 b2) l1,
                       cs ++ [CallFs Base (OStat name) None; CallCopyToLayer name cerr])
              | None =>
                  forall r l2,
                    fsOpen name l1 = (r, l2) ->
                    Open name w
                      = (Val (option_map (StoreFile Layer) (valOf r), errOf r),
                         setLayer (setBase w1 b2) l2,
                         cs ++ [CallFs Base (OStat name) None; CallCopyToLayer name None;
                                CallFs Layer (OOpen name) (errOf r)])
              end
        end).
Proof.
  intros E. split; [|split].
  - intros Hst r l1 Hl. unfold Open. rewrite (bind_run _ _ _ _ _ _ E).
    destruct Hst as [-> | (-> & i & -> & Hdir)];
      unfold onLayer, deref, bind, ret; simpl; try rewrite Hdir; simpl;
      rewrite Hl; reflexivity.
  - intros -> i -> Hdir cerr b1 l1 Hc. unfold Open. rewrite (bind_run _ _ _ _ _ _ E).
    unfold copyToLayer, onLayer, deref, bind, ret, notNil. simpl.
    rewrite Hdir. simpl. rewrite Hc. simpl.
    destruct cerr as [e|]; simpl; [reflexivity|].
    intros r l2 Hl. rewrite Hl. reflexivity.
  - intros -> rb b1 Hs. unfold Open. rewrite (bind_run _ _ _ _ _ _ E).
    unfold copyToLayer, onBase, onLayer, deref, bind, ret, notNil. simpl.
    rewrite Hs. simpl. destruct rb as [bfi|e]; simpl; [|reflexivity].
    intros Hdir cerr b2 l1 Hc. rewrite Hdir. simpl. rewrite Hc. simpl.
    destruct cerr as [e|]; simpl; [reflexivity|].
    intros r l2 Hl. rewrite Hl. reflexivity.
Qed.

(** X15.  [Open] never promotes a directory and never opens the layer after a
    failed promotion.  In any call, a promotion and an [Open] of the base
    exclude each other, and a promotion that failed is the last call. *)
Theorem Open_promotion_exclusive (name : string) (w : World B L) :
  (promotionIn (callsOf (Open name w)) ->
   forall n e, ~ In (CallFs Base (OOpen n) e) (callsOf (Open name w)))
  /\ (forall e pre post,
        callsOf (Open name w) = pre ++ CallCopyToLayer name (Some e) :: post ->
        post = [] /\ resultOf (Open name w) = Val (None, Some e)).
Proof.
  destruct (cacheStatus_returns name w) as (st & fi & err & w1 & cs & E & Hcs & Hinv).
  assert (Hno : forall n e, ~ In (CallCopyToLayer n e) cs).
  { intros n e Hin. rewrite List.Forall_forall in Hcs. exact (Hcs _ Hin). }
  assert (Hnb : forall n e, ~ In (CallFs Base (OOpen n) e) cs).
  { intros n e Hin. rewrite List.Forall_forall in Hcs. exact (Hcs _ Hin). }
  unfold Open. rewrite (bind_run _ _ _ _ _ _ E). split.
  - destruct err as [?|]; [|destruct st; try (destruct Hinv as (i & ->))];
      exec_dirs; unfold callsOf; simpl;
      intros (? & ? & Hp) ? ? Hin;
      (apply in_app_or in Hp as [Hp|Hp]; [exact (Hno _ _ Hp)|]);
      (apply in_app_or in Hin as [Hin|Hin]; [exact (Hnb _ _ Hin)|]);
      no_such_call Hin; no_such_call Hp.
  - intros e pre post.
    destruct err as [?|]; [|destruct st; try (destruct Hinv as (i & ->))];
      exec_dirs; unfold callsOf, resultOf; simpl; intros Hc;
      (apply (split_after_prefix isStat) in Hc; [|assumption|simpl; tauto]);
      destruct Hc as (pfx & -> & Hc); take_apart Hc; split; reflexivity.
Qed.

End DispatcherMore.

(** * Further properties of the watcher *)

Section WatcherMore.
Context {B L : Type} `{FsB : Fs B} `{FsL : Fs L} `{P : Promote B L}.

(** X16.  The loop handles the deliveries in order, each from the world the
    previous one left: run on [a ++ b] it does what it does on [a] and then,
    from there, what it does on [b]. *)
Theorem monitorLoop_app (a b : list WatcherMsg) (w : World B L) :
  monitorLoop (a ++ b) w
  = (let '(_, w1, cs1) := monitorLoop a w in
     let '(r, w2, cs2) := monitorLoop b w1 in
     (r, w2, cs1 ++ cs2)).
Proof.
  revert w. induction a as [|msg a IH]; intros w.
  - simpl. unfold ret. destruct (monitorLoop b w) as [[r w2] cs2]. reflexivity.
  - rewrite <- app_comm_cons. rewrite !monitorLoop_cons.
    destruct (monitorStep msg w) as [[r0 w0] cs0].
    rewrite IH.
    destruct (monitorLoop a w0) as [[r1 w1] cs1].
    destruct (monitorLoop b w1) as [[r2 w2] cs2].
    rewrite app_assoc. reflexivity.
Qed.

(** X17.  Deliveries that are not write events change nothing: run on events
    without the [fsnotify.Write] bit and on watcher errors, the loop calls
    neither store, leaves the world as it was, and logs one line for each
    watcher error, in order. *)
Theorem monitorLoop_ignores_other_deliveries (msgs : list WatcherMsg) (w : World B L) :
  Forall (fun msg => isWriteEvent msg = false) msgs ->
  monitorLoop msgs w = (Val [], w, watcherErrorLogs msgs).
Proof.
  intros H. revert w. induction H as [|msg rest Hmsg Hrest IH]; intros w.
  - reflexivity.
  - rewrite monitorLoop_cons.
    destruct msg as [name op|e]; simpl in Hmsg |- *.
    + rewrite Hmsg. unfold ret. rewrite IH. reflexivity.
    + unfold logPrintln, bind, ret. simpl. rewrite IH. reflexivity.
Qed.

(** X18.  A write event for a path that classifies as Miss, or whose metadata
    is a directory, is handled by the oracle's calls alone: the watcher
    promotes neither a path the layer does not have nor a directory. *)
Theorem monitorStep_skips_miss_and_directories (name : string) (op : Z)
    (w w1 : World B L) (st : cacheState) (fi : option FileInfo) (cs : list Call) :
  Z.land op fsnotify_Write = fsnotify_Write ->
  cacheStatus name w = (Val (st, fi, None), w1, cs) ->
  st = cacheMiss \/ (exists i, fi = Some i /\ IsDir i = true) ->
  monitorStep (MsgEvent name op) w = (Val true, w1, cs).
Proof.
  intros Hw E Hst. unfold monitorStep.
  rewrite (proj2 (Z.eqb_eq _ _) Hw). rewrite (bind_run _ _ _ _ _ _ E).
  destruct Hst as [-> | (i & -> & Hdir)].
  - simpl. unfold ret. rewrite app_nil_r. reflexivity.
  - destruct st; simpl; unfold deref, bind, ret; simpl; try rewrite Hdir; simpl;
      rewrite app_nil_r; reflexivity.
Qed.

Lemma monitorStep_calls (msg : WatcherMsg) (w : World B L) :
  Forall isWatcherCall (callsOf (monitorStep msg w))
  /\ (promotedNames (callsOf (monitorStep msg w)) = []
      \/ exists name op,
           msg = MsgEvent name op
           /\ Z.land op fsnotify_Write = fsnotify_Write
           /\ promotedNames (callsOf (monitorStep msg w)) = [name]).
Proof.
  destruct msg as [name op|e]; simpl.
  2: { unfold logPrintln, bind, ret, callsOf. simpl.
       split; [repeat constructor|left; reflexivity]. }
  destruct (Z.eqb_spec (Z.land op fsnotify_Write) fsnotify_Write) as [Hw|Hw].
  2: { unfold ret, callsOf. simpl. split; [constructor|left; reflexivity]. }
  destruct (cacheStatus_returns name w) as (st & fi & err & w1 & cs & E & Hcs & Hinv).
  assert (Hcs' : Forall isWatcherCall cs).
  { eapply List.Forall_impl; [|exact Hcs]. intros [s [] e|n e|m e]; simpl; tauto. }
  assert (Hpn : promotedNames cs = []).
  { clear - Hcs. induction Hcs as [|c cs Hc _ IH]; [reflexivity|].
    destruct c as [s [] e|n e|m e]; simpl in Hc |- *; try contradiction. exact IH. }
  rewrite (bind_run _ _ _ _ _ _ E).
  destruct err as [e|]; [|destruct st; try (destruct Hinv as (i & ->))];
    exec_dirs; unfold callsOf; simpl;
    (split; [apply Forall_app; split; [assumption|repeat constructor]|]);
    unfold promotedNames; rewrite flat_map_app; fold (promotedNames cs);
    rewrite Hpn; simpl;
    first [ left; reflexivity
          | right; exists name, op; repeat split; assumption ].
Qed.

(** X19.  Whatever it is delivered, [monitor] only ever calls [Stat] on the
    stores, promotes and logs: it applies no other verb to the base or to
    the layer.  The paths it promotes are, in order, paths of write events
    it was delivered, each at most once for each event. *)
Theorem monitor_calls (newWatcher : error) (msgs : list WatcherMsg) (w : World B L) :
  Forall isWatcherCall (callsOf (monitor newWatcher msgs w))
  /\ sublist (promotedNames (callsOf (monitor newWatcher msgs w))) (writtenNames msgs).
Proof.
  unfold monitor. destruct newWatcher as [e|]; simpl.
  { unfold logPrintln, bind, ret, callsOf. simpl.
    split; [repeat constructor|apply sublist_nil_l]. }
  revert w. induction msgs as [|msg rest IH]; intros w.
  - unfold ret, callsOf. simpl. split; [constructor|constructor].
  - rewrite monitorLoop_cons.
    destruct (monitorStep_calls msg w) as (Hstep & Hnames).
    destruct (monitorStep msg w) as [[r0 w0] cs0].
    destruct (IH w0) as (Hrest & Hsub).
    destruct (monitorLoop rest w0) as [[r1 w1] cs1].
    unfold callsOf in *. simpl in *.
    split; [apply Forall_app; split; assumption|].
    unfold promotedNames. rewrite flat_map_app. fold (promotedNames cs0).
    fold (promotedNames cs1).
    change (writtenNames (msg :: rest))
      with (writtenNames [msg] ++ writtenNames rest).
    destruct Hnames as [-> | (name & op & -> & Hw & ->)].
    + simpl. apply sublist_inserts_l. assumption.
    + simpl. rewrite (proj2 (Z.eqb_eq _ _) Hw). simpl.
      apply sublist_skip. assumption.
Qed.

End WatcherMore.

(** * Further runs on the concrete worlds *)

Lemma Stat_layer_entry_succeeds_witness :
  exists fi,
    resultOf (Stat "/a" worldLocal) = Val (Some fi, None)
    /\ ModTime (aFile "/a" T0) <= ModTime fi.
Proof.
  assert (Hl : fsStat "/a" (layer worldLocal) = (Ok (aFile "/a" T0), layer worldLocal))
    by (vm_compute; reflexivity).
  destruct (Stat_layer_entry_succeeds "/a" worldLocal _ _ Hl) as (fi & Hres & Hle & _).
  exists fi. split; assumption.
Defined.

Lemma Stat_miss_is_base_stat_witness :
  Stat "/a" worldMiss
    = (Val (Some (aFile "/a" T0), None), worldMiss,
       [CallFs Layer (OStat "/a") (Some ENOENT); CallFs Base (OStat "/a") None]).
Proof.
  assert (Hl : fsStat "/a" (layer worldMiss) = (Err ENOENT, layer worldMiss))
    by (vm_compute; reflexivity).
  assert (Hb : fsStat "/a" (base worldMiss) = (Ok (aFile "/a" T0), base worldMiss))
    by (vm_compute; reflexivity).
  exact (Stat_miss_is_base_stat "/a" worldMiss _ _ _ Hl Hb).
Defined.

Lemma cacheStatus_layer_failure_skips_base_witness :
  exists err,
    cacheStatus "/a" worldDeniedLayer
      = (Val (cacheMiss, None, err), worldDeniedLayer,
         [CallFs Layer (OStat "/a") (Some EACCES)]).
Proof.
  assert (Hl : fsStat "/a" (layer worldDeniedLayer) = (Err EACCES, layer worldDeniedLayer))
    by (vm_compute; reflexivity).
  destruct (cacheStatus_layer_failure_skips_base "/a" worldDeniedLayer _ _ Hl)
    as (err & E & _).
  exists err. exact E.
Defined.

Lemma cacheStatus_clock_witness :
  resultOf (cacheStatus "/a" (setClock worldStale (T0 + 100 * Hour)))
    = Val (cacheStale, Some (aFile "/a" (T0 + 2 * Hour)), None)
  /\ callsOf (cacheStatus "/a" (setClock worldHit T0)) = [CallFs Layer (OStat "/a") None].
Proof.
  split.
  - destruct (cacheStatus_clock "/a" worldStale (T0 + 100 * Hour)) as (Hlater & _).
    apply Hlater.
    + vm_compute. discriminate.
    + vm_compute. reflexivity.
    + left. reflexivity.
  - destruct (cacheStatus_clock "/a" worldHit T0) as (_ & Hearlier & _).
    apply Hearlier.
    + vm_compute. discriminate.
    + vm_compute. reflexivity.
Defined.

Lemma classification_error_aborts_witness :
  Remove "/a" worldDeniedLayer
    = (Val (Some (PathErrorPtr None)), worldDeniedLayer,
       [CallFs Layer (OStat "/a") (Some EACCES)])
  /\ Open "/a" worldDeniedLayer
     = (Val (None, Some (PathErrorPtr None)), worldDeniedLayer,
        [CallFs Layer (OStat "/a") (Some EACCES)]).
Proof.
  assert (E : cacheStatus "/a" worldDeniedLayer
              = (Val (cacheMiss, None, Some (PathErrorPtr None)), worldDeniedLayer,
                 [CallFs Layer (OStat "/a") (Some EACCES)]))
    by (vm_compute; reflexivity).
  destruct (classification_error_aborts "/a" worldDeniedLayer _ _ _ _ _ E)
    as (_ & _ & _ & Hremove & _ & _ & _ & Hopen).
  split; assumption.
Defined.

Lemma local_skips_base_witness :
  resultOf (Remove "/a" worldLocal) = Val None
  /\ callsOf (Remove "/a" worldLocal)
     = [CallFs Layer (OStat "/a") None; CallFs Base (OStat "/a") (Some ENOENT);
        CallFs Layer (ORemove "/a") None].
Proof.
  assert (E : cacheStatus "/a" worldLocal
              = (Val (cacheLocal, Some (aFile "/a" T0), None), worldLocal,
                 [CallFs Layer (OStat "/a") None;
                  CallFs Base (OStat "/a") (Some ENOENT)]))
    by (vm_compute; reflexivity).
  destruct (local_skips_base "/a" worldLocal _ _ _ E) as (_ & _ & _ & Hremove & _).
  assert (Hl : fsRemove "/a" (layer worldLocal)
               = (None, setFiles (layer worldLocal) (delete "/a" (files (layer worldLocal)))))
    by (vm_compute; reflexivity).
  rewrite (Hremove _ _ Hl). split; reflexivity.
Defined.

Lemma hit_applies_base_without_promotion_witness :
  baseWithoutPromotion (OChmod "/a" 384) [CallFs Layer (OStat "/a") None]
    (Chmod "/a" 384 worldHit).
Proof.
  assert (E : cacheStatus "/a" worldHit
              = (Val (cacheHit, Some (aFile "/a" T0), None), worldHit,
                 [CallFs Layer (OStat "/a") None]))
    by (vm_compute; reflexivity).
  destruct (hit_applies_base_without_promotion "/a" worldHit _ _ _ E)
    as (_ & Hchmod & _).
  apply Hchmod.
Defined.

Lemma layer_verb_only_after_base_witness :
  resultOf (Chtimes "/a" 1 2 worldHit) = Val None
  /\ ((exists pre',
         [CallFs Layer (OStat "/a") None; CallFs Base (OChtimes "/a" 1 2) None]
         = pre' ++ [CallFs Base (OChtimes "/a" 1 2) None])
      \/ (classifiesAs "/a" worldHit cacheLocal
          /\ forall e,
               ~ In (CallFs Base (OChtimes "/a" 1 2) e)
                    [CallFs Layer (OStat "/a") None;
                     CallFs Base (OChtimes "/a" 1 2) None])).
Proof.
  destruct (layer_verb_only_after_base worldHit) as (Hchtimes & _).
  assert (Hc : callsOf (Chtimes "/a" 1 2 worldHit)
               = [CallFs Layer (OStat "/a") None; CallFs Base (OChtimes "/a" 1 2) None]
                   ++ CallFs Layer (OChtimes "/a" 1 2) None :: [])
    by (vm_compute; reflexivity).
  destruct (Hchtimes "/a" 1 2 _ _ _ Hc) as (_ & Hres & Hbefore).
  split; assumption.
Defined.

Lemma promotion_only_when_stale_or_miss_witness :
  classifiesAs "/a" worldMiss cacheStale \/ classifiesAs "/a" worldMiss cacheMiss.
Proof.
  destruct (promotion_only_when_stale_or_miss "/a" worldMiss) as (_ & _ & _ & _ & Hopen).
  apply (Hopen "/a" None). vm_compute. tauto.
Defined.

Lemma OpenFile_read_only_flags_witness :
  OpenFile "/a" O_RDONLY 0 worldHit
    = (Val (Some (StoreFile Layer 3%nat), None),
       setLayer worldHit (snd (newHandle (layer worldHit))),
       [CallFs Layer (OStat "/a") None; CallFs Layer (OOpenFile "/a" O_RDONLY 0) None]).
Proof.
  destruct (OpenFile_read_only_flags "/a" O_RDONLY 0 worldHit eq_refl) as (_ & Hopen).
  assert (E : cacheStatus "/a" worldHit
              = (Val (cacheHit, Some (aFile "/a" T0), None), worldHit,
                 [CallFs Layer (OStat "/a") None]))
    by (vm_compute; reflexivity).
  assert (Hl : fsOpenFile "/a" O_RDONLY 0 (layer worldHit) = newHandle (layer worldHit))
    by (vm_compute; reflexivity).
  exact (Hopen _ _ _ _ E (or_intror eq_refl) _ _ Hl).
Defined.

Lemma Open_file_paths_witness :
  resultOf (Open "/a" worldMiss) = Val (Some (StoreFile Layer 3%nat), None)
  /\ callsOf (Open "/a" worldMiss)
     = [CallFs Layer (OStat "/a") (Some ENOENT); CallFs Base (OStat "/a") None;
        CallCopyToLayer "/a" None; CallFs Layer (OOpen "/a") None].
Proof.
  assert (E : cacheStatus "/a" worldMiss
              = (Val (cacheMiss, None, None), worldMiss,
                 [CallFs Layer (OStat "/a") (Some ENOENT)]))
    by (vm_compute; reflexivity).
  destruct (Open_file_paths "/a" worldMiss _ _ _ _ E) as (_ & _ & Hmiss).
  assert (Hs : fsStat "/a" (base worldMiss) = (Ok (aFile "/a" T0), base worldMiss))
    by (vm_compute; reflexivity).
  specialize (Hmiss eq_refl _ _ Hs). cbv beta iota in Hmiss.
  assert (Hc : copyToLayerFn "/a" (base worldMiss) (layer worldMiss)
               = (None, base worldMiss,
                  setFiles (layer worldMiss)
                    (<["/a" := aFile "/a" T0]> (files (layer worldMiss)))))
    by (vm_compute; reflexivity).
  specialize (Hmiss eq_refl _ _ _ Hc). cbv beta iota in Hmiss.
  assert (Hl : fsOpen "/a"
                 (setFiles (layer worldMiss)
                    (<["/a" := aFile "/a" T0]> (files (layer worldMiss))))
               = newHandle
                   (setFiles (layer worldMiss)
                      (<["/a" := aFile "/a" T0]> (files (layer worldMiss)))))
    by (vm_compute; reflexivity).
  rewrite (Hmiss _ _ Hl). split; reflexivity.
Defined.

Lemma Open_promotion_exclusive_witness :
  resultOf (Open "/a" worldReadOnlyLayer) = Val (None, Some EPERM).
Proof.
  destruct (Open_promotion_exclusive "/a" worldReadOnlyLayer) as (_ & Hlast).
  assert (Hc : callsOf (Open "/a" worldReadOnlyLayer)
               = [CallFs Layer (OStat "/a") (Some ENOENT); CallFs Base (OStat "/a") None]
                   ++ CallCopyToLayer "/a" (Some EPERM) :: [])
    by (vm_compute; reflexivity).
  destruct (Hlast _ _ _ Hc) as (_ & Hres). exact Hres.
Defined.

Lemma monitorLoop_ignores_other_deliveries_witness :
  monitorLoop [MsgEvent "/a" fsnotify_Create; MsgError EACCES;
               MsgEvent "/a" fsnotify_Remove] worldStale
    = (Val [], worldStale,
       [CallLog "[MonCacheOnReadFs] Watcher error:" (Some EACCES)]).
Proof.
  apply (monitorLoop_ignores_other_deliveries
           [MsgEvent "/a" fsnotify_Create; MsgError EACCES;
            MsgEvent "/a" fsnotify_Remove] worldStale).
  repeat constructor.
Defined.

Lemma monitorStep_skips_miss_and_directories_witness :
  monitorStep (MsgEvent "/d" fsnotify_Write) worldDir
    = (Val true, worldDir,
       [CallFs Layer (OStat "/d") None; CallFs Base (OStat "/d") None]).
Proof.
  assert (E : cacheStatus "/d" worldDir
              = (Val (cacheStale, Some (aDir "/d" (T0 + 2 * Hour)), None), worldDir,
                 [CallFs Layer (OStat "/d") None; CallFs Base (OStat "/d") None]))
    by (vm_compute; reflexivity).
  apply (monitorStep_skips_miss_and_directories "/d" fsnotify_Write _ _ _ _ _ eq_refl E).
  right. eexists. split; reflexivity.
Defined.
